(** * whoop.py: the request pipeline of the WHOOP API client

    A shallow embedding of [WhoopClient] (src/whoop.py): the values the
    JSON decoder hands to the client, the exceptions the methods raise,
    the cursor loop of [_make_paginated_request], the token state kept
    by [authenticate], and the date range built by [_format_dates]. *)

From Stdlib Require Import ZArith String Ascii List Lia Bool DecimalString.
From stdpp Require Import base option gmap strings list.

Local Open Scope string_scope.
Local Open Scope Z_scope.
Local Open Scope list_scope.

(** ** Python values *)

Local Set Warnings "-register-all".

Module Py.

(** The objects that reach the client: what [response.json()] decodes
    and what callers put into [params].  A [dict] keeps its keys in
    insertion order (iteration sees that order), so it is a list of
    bindings; the decoder never repeats a key.  Numbers with a
    fractional part are not represented. *)
Inductive pyval : Type :=
| PNone
| PBool (b : bool)
| PInt (n : Z)
| PStr (s : string)
| PList (l : list pyval)
| PDict (d : list (string * pyval)).

(** The exceptions raised on the paths modelled here. *)
Inductive exn : Type :=
| HTTPError (status_code : Z) (body : option pyval)
| KeyError (key : string)
| TypeError
| AttributeError
| ValueError (msg : string)
| OverflowError
| JSONDecodeError
| OtherError (name : string).

(** Computations that return or raise. *)
Definition result (A : Type) : Type := (exn + A)%type.

Definition ret {A} (a : A) : result A := inr a.
Definition raise {A} (e : exn) : result A := inl e.
Definition bind {A B} (m : result A) (k : A -> result B) : result B :=
  match m with
  | inl e => inl e
  | inr a => k a
  end.

Declare Scope py_scope.
Delimit Scope py_scope with py.
Notation "x <- m ;; k" := (bind m (fun x => k))
  (at level 100, m at next level, right associativity) : py_scope.
Local Open Scope py_scope.

(** [bool(v)]: the test of [if v] and of [x := v] in a condition. *)
Definition truthy (v : pyval) : bool :=
  match v with
  | PNone => false
  | PBool b => b
  | PInt n => negb (Z.eqb n 0)
  | PStr s => match s with EmptyString => false | String _ _ => true end
  | PList l => match l with [] => false | _ :: _ => true end
  | PDict d => match d with [] => false | _ :: _ => true end
  end.

(** The binding of [key] in a dict. *)
Fixpoint lookup_key (key : string) (d : list (string * pyval)) : option pyval :=
  match d with
  | [] => None
  | (k, v) :: rest => if String.eqb k key then Some v else lookup_key key rest
  end.

(** [v[key]] with a string key: only a dict can be subscripted so, and
    a missing key raises. *)
Definition getitem (v : pyval) (key : string) : result pyval :=
  match v with
  | PDict d =>
      match lookup_key key d with
      | Some x => ret x
      | None => raise (KeyError key)
      end
  | _ => raise TypeError
  end.

(** [v.get(key, default)]: a method of dicts alone. *)
Definition get (v : pyval) (key : string) (default : pyval) : result pyval :=
  match v with
  | PDict d =>
      match lookup_key key d with
      | Some x => ret x
      | None => ret default
      end
  | _ => raise AttributeError
  end.

(** The characters of a string, each as a string of length one. *)
Fixpoint chars (s : string) : list pyval :=
  match s with
  | EmptyString => []
  | String c rest => PStr (String c EmptyString) :: chars rest
  end.

(** [iter(v)]: the items [list.__iadd__] takes from its right operand. *)
Definition iterate (v : pyval) : result (list pyval) :=
  match v with
  | PList l => ret l
  | PStr s => ret (chars s)
  | PDict d => ret (map (fun kv => PStr (fst kv)) d)
  | PNone | PBool _ | PInt _ => raise TypeError
  end.

(** [acc += v] on a list [acc]. *)
Definition iadd (acc : list pyval) (v : pyval) : result (list pyval) :=
  items <- iterate v ;; ret (acc ++ items).

(** [str(n)] for an int. *)
Definition str_int (n : Z) : string := NilZero.string_of_int (Z.to_int n).

Section Str.
(** [repr] of a list or dict is the interpreter's business; it is a
    parameter of [str]. *)
Variable container_repr : pyval -> string.

(** [str(v)]. *)
Definition str (v : pyval) : string :=
  match v with
  | PNone => "None"
  | PBool true => "True"
  | PBool false => "False"
  | PInt n => str_int n
  | PStr s => s
  | PList _ | PDict _ => container_repr v
  end.
End Str.

End Py.

(** ** The HTTP session and the cursor loop *)

Module Http.
Import Py.
Local Open Scope py_scope.

Definition AUTH_URL : string := "https://api-7.whoop.com".
Definition REQUEST_URL : string := "https://api.prod.whoop.com/developer".

(** A response as the client sees it: the status line and the decoded
    body ([None] when the body is not JSON). *)
Record response : Type := Response {
  status_code : Z;
  body : option pyval
}.

(** The keyword arguments of one [session.request] call.  [params] is
    a dict only ever used as a map from names to values. *)
Record request : Type := Request {
  method : string;
  url : string;
  params : option (gmap string pyval);
  kwargs : gmap string pyval
}.

(** What a [session.request] call comes back with: a response, or an
    exception of the session itself (no token, no connection). *)
Definition reply : Type := result response.

(** The session seen from the client: the replies the server will
    give, in order, and the requests issued so far, oldest first. *)
Record wire : Type := Wire {
  inbox : list reply;
  outbox : list request
}.

(** A call either completes (returning or raising) or is still waiting
    for a reply that has not arrived. *)
Inductive outcome (A : Type) : Type :=
| Done (r : result A)
| Waiting.
Arguments Done {A} r.
Arguments Waiting {A}.

(** [self.session.request(...)]: the request goes out, the next reply
    comes in. *)
Definition session_request (rq : request) (w : wire) : outcome response * wire :=
  match inbox w with
  | [] => (Waiting, Wire [] (outbox w ++ [rq]))
  | r :: rest => (Done r, Wire rest (outbox w ++ [rq]))
  end.

(** Modelled from the spec: [Response.raise_for_status] belongs to the
    HTTP library; section 4.1 has it fail, carrying status and body,
    when the status is 4xx or 5xx. *)
Definition raise_for_status (r : response) : result unit :=
  if (400 <=? status_code r) && (status_code r <? 600)
  then raise (HTTPError (status_code r) (body r))
  else ret tt.

(** [response.json()]. *)
Definition json (r : response) : result pyval :=
  match body r with
  | Some v => ret v
  | None => raise JSONDecodeError
  end.

(** [_make_request(method, url_slug, **kwargs)]. *)
Definition _make_request (method url_slug : string)
    (params : option (gmap string pyval)) (kwargs : gmap string pyval)
    (w : wire) : outcome pyval * wire :=
  match session_request (Request method (REQUEST_URL +:+ "/" +:+ url_slug) params kwargs) w with
  | (Waiting, w') => (Waiting, w')
  | (Done r, w') =>
      (Done (response <- r ;;
             _ <- raise_for_status response ;;
             json response), w')
  end.

(** One pass through the body of [while True], after the response has
    been decoded: the grown list and the cursor read from the page. *)
Definition absorb (response_data : list pyval) (response : pyval)
    : result (list pyval * pyval) :=
  records <- getitem response "records" ;;
  response_data' <- iadd response_data records ;;
  next_token <- getitem response "next_token" ;;
  ret (response_data', next_token).

(** The [while True] loop.  Every pass consumes a reply, so [fuel]
    larger than the number of replies left is never used up. *)
Fixpoint pages_loop (fuel : nat) (method url_slug : string)
    (kwargs : gmap string pyval) (params : gmap string pyval)
    (response_data : list pyval) (w : wire) : outcome (list pyval) * wire :=
  match fuel with
  | O => (Waiting, w)
  | S fuel' =>
      match _make_request method url_slug (Some params) kwargs w with
      | (Waiting, w') => (Waiting, w')
      | (Done (inl e), w') => (Done (raise e), w')
      | (Done (inr response), w') =>
          match absorb response_data response with
          | inl e => (Done (raise e), w')
          | inr (response_data', next_token) =>
              if truthy next_token
              then pages_loop fuel' method url_slug kwargs
                     (<["nextToken" := next_token]> params) response_data' w'
              else (Done (ret response_data'), w')
          end
      end
  end.

(** [_make_paginated_request(method, url_slug, **kwargs)]: [params] is
    popped from the keyword arguments, an empty dict when not given. *)
Definition _make_paginated_request (method url_slug : string)
    (params : option (gmap string pyval)) (kwargs : gmap string pyval)
    (w : wire) : outcome (list pyval) * wire :=
  pages_loop (S (length (inbox w))) method url_slug kwargs
    (default ∅ params) [] w.

(** A page of the envelope [{records: [...], next_token: ...}]; the
    cursor field may be missing from the object. *)
Record page : Type := Page {
  records : list pyval;
  next_token : option pyval
}.

Definition page_body (p : page) : pyval :=
  PDict (("records", PList (records p)) ::
         match next_token p with
         | Some t => [("next_token", t)]
         | None => []
         end).

(** The reply carrying page [p] with status 200. *)
Definition page_reply (p : page) : reply :=
  ret (Response 200 (Some (page_body p))).

(** The cursor sends the loop round again. *)
Definition has_more (p : page) : bool :=
  match next_token p with
  | Some t => truthy t
  | None => false
  end.

(** A server that answers the [i]-th request with [pages i], seen up
    to its first [n] replies. *)
Definition serve (pages : nat -> reply) (n : nat) : wire :=
  Wire (map pages (seq 0 n)) [].

End Http.

(** ** Dates: the part of [datetime] that [_format_dates] uses *)

Module Dates.
Import Py.
Local Open Scope py_scope.

Record date : Type := Date { year : Z; month : Z; day : Z }.

Record time : Type := Time {
  hour : Z; minute : Z; second : Z; microsecond : Z
}.

(** A [datetime]: a date, a time of day and, when aware, the offset
    from UTC in seconds. *)
Record datetime : Type := Datetime {
  dt_date : date;
  dt_time : time;
  tzinfo : option Z
}.

(** [time.min] and [time.max]. *)
Definition time_min : time := Time 0 0 0 0.
Definition time_max : time := Time 23 59 59 999999.

(** [datetime.combine(d, t)] for a naive [t]: of [d] only the date is
    read; its time of day and its tzinfo are ignored. *)
Definition combine (d : datetime) (t : time) : datetime :=
  Datetime (dt_date d) t None.

(** The proleptic Gregorian calendar, as the interpreter computes it. *)
Definition _is_leap (y : Z) : bool :=
  (y mod 4 =? 0) && (negb (y mod 100 =? 0) || (y mod 400 =? 0)).

Definition _days_before_year (y : Z) : Z :=
  let y := y - 1 in y * 365 + y / 4 - y / 100 + y / 400.

Definition _DAYS_IN_MONTH (m : Z) : Z :=
  match m with
  | 1 => 31 | 2 => 28 | 3 => 31 | 4 => 30 | 5 => 31 | 6 => 30
  | 7 => 31 | 8 => 31 | 9 => 30 | 10 => 31 | 11 => 30 | 12 => 31
  | _ => -1
  end.

Definition _DAYS_BEFORE_MONTH (m : Z) : Z :=
  match m with
  | 1 => 0 | 2 => 31 | 3 => 59 | 4 => 90 | 5 => 120 | 6 => 151
  | 7 => 181 | 8 => 212 | 9 => 243 | 10 => 273 | 11 => 304 | 12 => 334
  | _ => -1
  end.

Definition _days_in_month (y m : Z) : Z :=
  if (m =? 2) && _is_leap y then 29 else _DAYS_IN_MONTH m.

Definition _days_before_month (y m : Z) : Z :=
  _DAYS_BEFORE_MONTH m + (if (2 <? m) && _is_leap y then 1 else 0).

Definition _ymd2ord (y m d : Z) : Z :=
  _days_before_year y + _days_before_month y m + d.

Definition _DI400Y : Z := 146097.
Definition _DI100Y : Z := 36524.
Definition _DI4Y : Z := 1461.
Definition _MAXORDINAL : Z := 3652059.

Definition _ord2ymd (n : Z) : date :=
  let n := n - 1 in
  let n400 := n / _DI400Y in
  let n := n mod _DI400Y in
  let y := n400 * 400 + 1 in
  let n100 := n / _DI100Y in
  let n := n mod _DI100Y in
  let n4 := n / _DI4Y in
  let n := n mod _DI4Y in
  let n1 := n / 365 in
  let n := n mod 365 in
  let y := y + n100 * 100 + n4 * 4 + n1 in
  if (n1 =? 4) || (n100 =? 4) then Date (y - 1) 12 31
  else
    let leapyear := (n1 =? 3) && (negb (n4 =? 24) || (n100 =? 3)) in
    let m := Z.shiftr (n + 50) 5 in
    let preceding := _DAYS_BEFORE_MONTH m + (if (2 <? m) && leapyear then 1 else 0) in
    if n <? preceding
    then
      let m := m - 1 in
      let preceding :=
        preceding - (_DAYS_IN_MONTH m + (if (m =? 2) && leapyear then 1 else 0)) in
      Date y m (n - preceding + 1)
    else Date y m (n - preceding + 1).

(** [d.toordinal()]: day 1 is 0001-01-01. *)
Definition toordinal (d : date) : Z := _ymd2ord (year d) (month d) (day d).

(** A date the [date] class can hold. *)
Definition valid_date (d : date) : bool :=
  (1 <=? year d) && (year d <=? 9999) &&
  (1 <=? month d) && (month d <=? 12) &&
  (1 <=? day d) && (day d <=? _days_in_month (year d) (month d)).

(** [dt - timedelta(days=n)]: the date moves, the time of day and the
    tzinfo stay; a result before year 1 or after year 9999 overflows. *)
Definition minus_days (dt : datetime) (n : Z) : result datetime :=
  let days := toordinal (dt_date dt) - n in
  if (0 <? days) && (days <=? _MAXORDINAL)
  then ret (Datetime (_ord2ymd days) (dt_time dt) (tzinfo dt))
  else raise OverflowError.

(** The order of naive datetimes: field by field, year first. *)
Definition fields (dt : datetime) : list Z :=
  [ year (dt_date dt); month (dt_date dt); day (dt_date dt);
    hour (dt_time dt); minute (dt_time dt); second (dt_time dt);
    microsecond (dt_time dt) ].

Fixpoint lex_gt (a b : list Z) : bool :=
  match a, b with
  | x :: a', y :: b' => (y <? x) || ((x =? y) && lex_gt a' b')
  | _ :: _, [] => true
  | [], _ => false
  end.

(** [a > b] for naive [a] and [b]. *)
Definition datetime_gt (a b : datetime) : bool := lex_gt (fields a) (fields b).

(** ["%0<width>d" % n] for [n >= 0]. *)
Definition zfill (width : nat) (n : Z) : string :=
  let digits := str_int n in
  String.concat "" (repeat "0" (width - String.length digits)%nat) +:+ digits.

Definition format_date (d : date) : string :=
  zfill 4 (year d) +:+ "-" +:+ zfill 2 (month d) +:+ "-" +:+ zfill 2 (day d).

Definition format_seconds (t : time) : string :=
  zfill 2 (hour t) +:+ ":" +:+ zfill 2 (minute t) +:+ ":" +:+ zfill 2 (second t).

(** The time of day under timespec ["auto"]: microseconds are printed
    only when they are not zero. *)
Definition format_auto (t : time) : string :=
  if microsecond t =? 0 then format_seconds t
  else format_seconds t +:+ "." +:+ zfill 6 (microsecond t).

(** [dt.isoformat(sep)] for a naive [dt]. *)
Definition isoformat_sep (sep : string) (dt : datetime) : string :=
  format_date (dt_date dt) +:+ sep +:+ format_auto (dt_time dt).

(** [dt.isoformat()]. *)
Definition isoformat (dt : datetime) : string := isoformat_sep "T" dt.

(** [dt.isoformat(timespec="seconds")] for a naive [dt]. *)
Definition isoformat_seconds (dt : datetime) : string :=
  format_date (dt_date dt) +:+ "T" +:+ format_seconds (dt_time dt).

(** [str(dt)], as an f-string prints it. *)
Definition str_datetime (dt : datetime) : string := isoformat_sep " " dt.

(** Computations that read the clock: the number of readings taken so
    far goes in and comes out. *)
Definition clocked (A : Type) : Type := nat -> result A * nat.

Definition cret {A} (a : A) : clocked A := fun tick => (ret a, tick).
Definition lift {A} (r : result A) : clocked A := fun tick => (r, tick).
Definition cbind {A B} (m : clocked A) (k : A -> clocked B) : clocked B :=
  fun tick =>
    match m tick with
    | (inl e, tick') => (inl e, tick')
    | (inr a, tick') => k a tick'
    end.

Declare Scope clock_scope.
Delimit Scope clock_scope with clock.
Notation "x <- m ;; k" := (cbind m (fun x => k))
  (at level 100, m at next level, right associativity) : clock_scope.

Section FormatDates.
(** The wall clock: [clock i] is what the [i]-th call of
    [datetime.today()] returns. *)
Variable clock : nat -> datetime.

(** [datetime.fromisoformat], the date library's parser. *)
Variable fromisoformat : string -> result datetime.

Definition today : clocked datetime := fun tick => (ret (clock tick), S tick).

(** [_format_dates(start_date, end_date)].  A date that is [None] or
    the empty string is falsy and takes its default. *)
Definition _format_dates (start_date end_date : option string)
    : clocked (string * string) :=
  (end_day <- match end_date with
              | Some (String _ _ as s) => lift (fromisoformat s)
              | _ => today
              end ;;
   let end_ := combine end_day time_max in
   start_day <- match start_date with
                | Some (String _ _ as s) => lift (fromisoformat s)
                | _ => (now <- today ;; lift (minus_days now 6))
                end ;;
   let start := combine start_day time_min in
   if datetime_gt start end_
   then lift (raise (ValueError
                ("Start datetime greater than end datetime: "
                 +:+ str_datetime start +:+ " > " +:+ str_datetime end_)))
   else cret (isoformat start +:+ "Z", isoformat_seconds end_ +:+ "Z"))%clock.
End FormatDates.

(** A parser for the two layouts ["YYYY-MM-DD"] and
    ["YYYY-MM-DD?HH:MM:SS"] (any one character between date and
    time), enough to run [_format_dates] on literal dates.  The
    library's parser accepts more; nothing proved below depends on
    which parser is plugged in. *)
Definition digit (c : ascii) : option Z :=
  let n := Z.of_nat (nat_of_ascii c) in
  if (48 <=? n) && (n <=? 57) then Some (n - 48) else None.

Fixpoint number (acc : Z) (cs : list ascii) : option Z :=
  match cs with
  | [] => Some acc
  | c :: rest =>
      match digit c with
      | Some d => number (acc * 10 + d) rest
      | None => None
      end
  end.

Definition dash : ascii := "-"%char.
Definition colon : ascii := ":"%char.

Definition parse_date (cs : list ascii) : option date :=
  match cs with
  | [y1; y2; y3; y4; s1; m1; m2; s2; d1; d2] =>
      if Ascii.eqb s1 dash && Ascii.eqb s2 dash then
        match number 0 [y1; y2; y3; y4], number 0 [m1; m2], number 0 [d1; d2] with
        | Some y, Some m, Some d =>
            if valid_date (Date y m d) then Some (Date y m d) else None
        | _, _, _ => None
        end
      else None
  | _ => None
  end.

Definition parse_time (cs : list ascii) : option time :=
  match cs with
  | [h1; h2; s1; m1; m2; s2; c1; c2] =>
      if Ascii.eqb s1 colon && Ascii.eqb s2 colon then
        match number 0 [h1; h2], number 0 [m1; m2], number 0 [c1; c2] with
        | Some h, Some m, Some c =>
            if (h <? 24) && (m <? 60) && (c <? 60) then Some (Time h m c 0) else None
        | _, _, _ => None
        end
      else None
  | _ => None
  end.

Definition invalid_isoformat (s : string) : exn :=
  ValueError ("Invalid isoformat string: '" +:+ s +:+ "'").

Definition parse_isoformat (s : string) : result datetime :=
  let cs := list_ascii_of_string s in
  match parse_date (firstn 10 cs) with
  | None => raise (invalid_isoformat s)
  | Some d =>
      match skipn 10 cs with
      | [] => ret (Datetime d time_min None)
      | _ :: tcs =>
          match parse_time tcs with
          | Some t => ret (Datetime d t None)
          | None => raise (invalid_isoformat s)
          end
      end
  end.

End Dates.

(** ** The client *)

Module Client.
Import Py Http Dates.
Local Open Scope py_scope.

(** The fields of a [WhoopClient].  [token] is [self.session.token],
    [None] until a token has been fetched; [closed] records that the
    session's transport has been released. *)
Record WhoopClient : Type := Build_WhoopClient {
  _username : string;
  _password : string;
  token : pyval;
  user_id : string;
  closed : bool
}.

Definition set_token (t : pyval) (c : WhoopClient) : WhoopClient :=
  Build_WhoopClient (_username c) (_password c) t (user_id c) (closed c).

Definition set_user_id (u : string) (c : WhoopClient) : WhoopClient :=
  Build_WhoopClient (_username c) (_password c) (token c) u (closed c).

(** Modelled from the spec: [OAuth2Session.fetch_token] belongs to the
    OAuth library.  The authorization endpoint either turns the
    credentials down, and the call raises with the session untouched,
    or answers with a token payload, which becomes [session.token]. *)
Definition fetch_token (answer : result pyval) (c : WhoopClient)
    : result pyval * WhoopClient :=
  match answer with
  | inl e => (raise e, c)
  | inr payload => (ret payload, set_token payload c)
  end.

(** [is_authenticated()]. *)
Definition is_authenticated (c : WhoopClient) : bool :=
  match token c with
  | PNone => false
  | _ => true
  end.

(** [close()]. *)
Definition close (c : WhoopClient) : WhoopClient :=
  Build_WhoopClient (_username c) (_password c) (token c) (user_id c) true.

(** [__str__()]. *)
Definition __str__ (c : WhoopClient) : string :=
  "WhoopClient(" +:+
  (if truthy (PStr (user_id c)) then user_id c else "<Unauthenticated>") +:+ ")".

Section Methods.
Variable container_repr : pyval -> string.
Variable clock : nat -> datetime.
Variable fromisoformat : string -> result datetime.

(** [authenticate()], given the authorization endpoint's answer. *)
Definition authenticate (answer : result pyval) (c : WhoopClient)
    : result unit * WhoopClient :=
  match fetch_token answer c with
  | (inl e, c') => (raise e, c')
  | (inr _, c') =>
      if negb (truthy (PStr (user_id c')))
      then
        match (user <- get (token c') "user" (PDict []) ;;
               get user "id" (PStr "")) with
        | inl e => (raise e, c')
        | inr id => (ret tt, set_user_id (str container_repr id) c')
        end
      else (ret tt, c')
  end.


(** The accessors of single objects. *)
Definition get_profile := _make_request "GET" "v1/user/profile/basic" None ∅.
Definition get_body_measurement := _make_request "GET" "v1/user/measurement/body" None ∅.
Definition get_cycle_by_id (cycle_id : string) :=
  _make_request "GET" ("v1/cycle/" +:+ cycle_id) None ∅.
Definition get_recovery_for_cycle (cycle_id : string) :=
  _make_request "GET" ("v1/cycle/" +:+ cycle_id +:+ "/recovery") None ∅.
Definition get_sleep_by_id (sleep_id : string) :=
  _make_request "GET" ("v1/activity/sleep/" +:+ sleep_id) None ∅.
Definition get_workout_by_id (workout_id : string) :=
  _make_request "GET" ("v1/activity/workout/" +:+ workout_id) None ∅.

(** The accessors of collections: the date range, then the cursor
    loop with [start], [end] and [limit=25]. *)
Definition get_collection (url_slug : string)
    (start_date end_date : option string) (w : wire) (tick : nat)
    : outcome (list pyval) * wire * nat :=
  match _format_dates clock fromisoformat start_date end_date tick with
  | (inl e, tick') => (Done (raise e), w, tick')
  | (inr (start, end_), tick') =>
      (_make_paginated_request "GET" url_slug
         (Some (<["start" := PStr start]>
                  (<["end" := PStr end_]> {[ "limit" := PInt 25 ]})))
         ∅ w, tick')
  end.

Definition get_cycle_collection := get_collection "v1/cycle".
Definition get_recovery_collection := get_collection "v1/recovery".
Definition get_sleep_collection := get_collection "v1/activity/sleep".
Definition get_workout_collection := get_collection "v1/activity/workout".

(** A client at work: its fields, its session's wire and the number
    of clock readings taken. *)
Record world : Type := World {
  self : WhoopClient;
  net : wire;
  ticks : nat
}.

(** The calls a user can make on a client. *)
Inductive call : Type :=
| Authenticate (answer : result pyval)
| IsAuthenticated
| Enter
| Exit
| Close
| Str
| GetProfile
| GetBodyMeasurement
| GetCycleById (cycle_id : string)
| GetRecoveryForCycle (cycle_id : string)
| GetSleepById (sleep_id : string)
| GetWorkoutById (workout_id : string)
| GetCycleCollection (start_date end_date : option string)
| GetRecoveryCollection (start_date end_date : option string)
| GetSleepCollection (start_date end_date : option string)
| GetWorkoutCollection (start_date end_date : option string).

Definition single (m : wire -> outcome pyval * wire) (x : world) : world :=
  World (self x) (snd (m (net x))) (ticks x).

Definition collection
    (m : wire -> nat -> outcome (list pyval) * wire * nat) (x : world) : world :=
  let '(_, w, tick) := m (net x) (ticks x) in World (self x) w tick.

(** The state a call leaves behind, whether it returned or raised. *)
Definition invoke (op : call) (x : world) : world :=
  match op with
  | Authenticate answer =>
      World (snd (authenticate answer (self x))) (net x) (ticks x)
  | IsAuthenticated | Enter | Str => x
  | Exit | Close => World (close (self x)) (net x) (ticks x)
  | GetProfile => single get_profile x
  | GetBodyMeasurement => single get_body_measurement x
  | GetCycleById i => single (get_cycle_by_id i) x
  | GetRecoveryForCycle i => single (get_recovery_for_cycle i) x
  | GetSleepById i => single (get_sleep_by_id i) x
  | GetWorkoutById i => single (get_workout_by_id i) x
  | GetCycleCollection s e => collection (get_cycle_collection s e) x
  | GetRecoveryCollection s e => collection (get_recovery_collection s e) x
  | GetSleepCollection s e => collection (get_sleep_collection s e) x
  | GetWorkoutCollection s e => collection (get_workout_collection s e) x
  end.

(** A session: calls made one after the other. *)
Definition session (ops : list call) (x : world) : world :=
  fold_left (fun x op => invoke op x) ops x.
End Methods.

End Client.

(** ** Vocabulary of the statements *)

Module Paging.
Import Py Http.

(** The cursor of a page, [None] standing in for a missing field. *)
Definition cursor (p : page) : pyval := default PNone (next_token p).

(** The request the loop issues while its parameters are [prm]. *)
Definition page_request (method url_slug : string) (kwargs : gmap string pyval)
    (prm : gmap string pyval) : request :=
  Request method (REQUEST_URL +:+ "/" +:+ url_slug) (Some prm) kwargs.

(** The parameters of the requests that fetch the pages [ps] one after
    the other, starting from [prm]. *)
Fixpoint trail (prm : gmap string pyval) (ps : list page) : list (gmap string pyval) :=
  match ps with
  | [] => []
  | p :: ps' => prm :: trail (<["nextToken" := cursor p]> prm) ps'
  end.

(** The parameters once the pages [ps] have been consumed. *)
Definition advance (prm : gmap string pyval) (ps : list page) : gmap string pyval :=
  fold_left (fun prm p => <["nextToken" := cursor p]> prm) ps prm.

(** All records of the pages [ps], page after page. *)
Definition all_records (ps : list page) : list pyval := concat (map records ps).

(** Page [k] is the first of the stream whose cursor does not send the
    loop round again. *)
Definition first_exhausted (pages : nat -> page) (k : nat) : Prop :=
  has_more (pages k) = false /\ forall i, (i < k)%nat -> has_more (pages i) = true.

(** The first [n] pages of a stream. *)
Definition prefix (pages : nat -> page) (n : nat) : list page := map pages (seq 0 n).

End Paging.

Module Tokens.
Import Py Client.

(** The identifier a token payload carries for its user: an integer,
    as the API sends it, or a string that is not empty. *)
Definition is_user_id (v : pyval) : bool :=
  match v with
  | PInt _ => true
  | PStr (String _ _) => true
  | _ => false
  end.

(** The token payload [payload] is an object whose [user] is an object
    whose [id] is [id]. *)
Definition carries_user_id (payload id : pyval) : Prop :=
  exists fields user,
    payload = PDict fields /\
    lookup_key "user" fields = Some (PDict user) /\
    lookup_key "id" user = Some id.

(** The token payload is an object without a [user], or whose [user]
    is an object without an [id]. *)
Definition lacks_user_id (payload : pyval) : Prop :=
  exists fields,
    payload = PDict fields /\
    (lookup_key "user" fields = None \/
     exists user, lookup_key "user" fields = Some (PDict user) /\
                  lookup_key "id" user = None).

End Tokens.

Module Ranges.
Import Py Dates.

(** The order of dates: year, then month, then day. *)
Definition date_gt (a b : date) : bool :=
  lex_gt [year a; month a; day a] [year b; month b; day b].

(** The first and the last second of a day, labelled as UTC. *)
Definition day_start (d : date) : string := format_date d +:+ "T00:00:00Z".
Definition day_end (d : date) : string := format_date d +:+ "T23:59:59Z".

(** The error of a range that starts on [s] and ends on [e]. *)
Definition range_error (s e : date) : exn :=
  ValueError ("Start datetime greater than end datetime: "
              +:+ format_date s +:+ " 00:00:00 > "
              +:+ format_date e +:+ " 23:59:59.999999").

(** The date [n] years after [d]. *)
Definition later_years (n : Z) (d : date) : date :=
  Date (year d + n) (month d) (day d).

(** The days [lo+1 .. lo+count] all satisfy [check]. *)
Fixpoint all_days (check : Z -> bool) (lo : Z) (count : nat) : bool :=
  match count with
  | O => true
  | S count' => if check (lo + 1) then all_days check (lo + 1) count' else false
  end.

(** The month and the day of the month of day [n] of a year, counted
    from 0, as [_ord2ymd] finds them. *)
Definition month_day (n : Z) (leapyear : bool) : Z * Z :=
  let m := Z.shiftr (n + 50) 5 in
  let preceding := _DAYS_BEFORE_MONTH m + (if (2 <? m) && leapyear then 1 else 0) in
  if n <? preceding
  then
    let m := m - 1 in
    let preceding :=
      preceding - (_DAYS_IN_MONTH m + (if (m =? 2) && leapyear then 1 else 0)) in
    (m, n - preceding + 1)
  else (m, n - preceding + 1).

(** Day [n] of a year, counted from 1, falls in a month of the year,
    on a day of that month, with [n - 1] days of the year before it. *)
Definition month_day_fits (leapyear : bool) (n : Z) : bool :=
  let '(m, d) := month_day (n - 1) leapyear in
  (1 <=? m) && (m <=? 12) && (1 <=? d) &&
  (d <=? _DAYS_IN_MONTH m + (if (m =? 2) && leapyear then 1 else 0)) &&
  (_DAYS_BEFORE_MONTH m + (if (2 <? m) && leapyear then 1 else 0) + d =? n).

Section Sources.
Variable clock : nat -> datetime.
Variable fromisoformat : string -> result datetime.

(** Where [_format_dates] takes the day its range ends on, and the
    day it starts on. *)
Definition end_source (end_date : option string) : clocked datetime :=
  match end_date with
  | Some (String _ _ as s) => lift (fromisoformat s)
  | _ => today clock
  end.

Definition start_source (start_date : option string) : clocked datetime :=
  match start_date with
  | Some (String _ _ as s) => lift (fromisoformat s)
  | _ => (now <- today clock ;; lift (minus_days now 6))%clock
  end.
End Sources.

End Ranges.

Module Replies.
Import Py Http Paging.

(** A status that [raise_for_status] lets through. *)
Definition passes (status : Z) : Prop := status < 400 \/ 600 <= status.

(** A value that [+=] cannot take items from. *)
Definition not_iterable (v : pyval) : bool :=
  match v with
  | PNone | PBool _ | PInt _ => true
  | PStr _ | PList _ | PDict _ => false
  end.

(** A value that cannot be subscripted with a string. *)
Definition not_object (v : pyval) : bool :=
  match v with
  | PDict _ => false
  | _ => true
  end.

(** The request agrees with the caller's on everything but the cursor. *)
Definition as_called (meth url_slug : string) (params0 kwargs0 : gmap string pyval)
    (rq : request) : Prop :=
  method rq = meth /\
  url rq = REQUEST_URL +:+ "/" +:+ url_slug /\
  kwargs rq = kwargs0 /\
  exists prm, params rq = Some prm /\
              forall k, k <> "nextToken" -> prm !! k = params0 !! k.

(** What one pass of the loop makes of a reply: the grown list and
    the cursor, or the exception that ends the call. *)
Definition pass (response_data : list pyval) (rp : reply)
    : result (list pyval * pyval) :=
  (response <- rp ;;
   _ <- raise_for_status response ;;
   decoded <- json response ;;
   absorb response_data decoded)%py.

End Replies.

Module Window.
Import Py Dates.

(** A date argument that is neither [None] nor the empty string. *)
Definition given (d : option string) : bool :=
  match d with
  | Some (String _ _) => true
  | _ => false
  end.

(** The argument with the empty string read as [None]. *)
Definition blank_as_none (d : option string) : option string :=
  match d with
  | Some EmptyString => None
  | _ => d
  end.

(** The query of a collection request for a range of days. *)
Definition range_params (start_day end_day : date) : gmap string pyval :=
  <["start" := PStr (Ranges.day_start start_day)]>
    (<["end" := PStr (Ranges.day_end end_day)]> {[ "limit" := PInt 25 ]}).

End Window.

(** ** The JSON client authentication method *)

Module Auth.
Import Py.

(** [d[k] = v] on a dict: the value of a key already there is replaced
    where it stands, a new key goes to the end. *)
Fixpoint setitem (k : string) (v : pyval) (d : list (string * pyval))
    : list (string * pyval) :=
  match d with
  | [] => [(k, v)]
  | (k', v') :: rest =>
      if String.eqb k' k then (k', v) :: rest else (k', v') :: setitem k v rest
  end.

(** [dict(pairs)] for a list of 2-tuples of strings. *)
Definition dict (pairs : list (string * string)) : list (string * pyval) :=
  fold_left (fun d kv => setitem (fst kv) (PStr (snd kv)) d) pairs [].

Section AuthMethod.
(** [extract_params] of the OAuth library: the parameters of a request
    body as 2-tuples, or [None] when the body holds none. *)
Variable extract_params : string -> option (list (string * string)).

(** [json.dumps]. *)
Variable dumps : pyval -> string.

(** The headers of the request being signed, and [headers[k] = v] on
    them; the mapping is the HTTP library's. *)
Variable headers_of_request : Type.
Variable set_header : string -> string -> headers_of_request -> headers_of_request.

(** [_auth_password_json(_client, _method, uri, headers, body)]: the
    body is rebuilt first; [dict(None)] raises before the headers are
    touched. *)
Definition _auth_password_json (uri : string) (headers : headers_of_request)
    (body : string) : result (string * headers_of_request * string) :=
  match extract_params body with
  | None => raise TypeError
  | Some pairs =>
      let body := dumps (PDict (dict pairs)) in
      let headers := set_header "Content-Type" "application/json" headers in
      ret (uri, headers, body)
  end.
End AuthMethod.

(** The value of the last pair with key [k]. *)
Fixpoint last_value (k : string) (pairs : list (string * string)) : option string :=
  match pairs with
  | [] => None
  | (k', v) :: rest =>
      match last_value k rest with
      | Some x => Some x
      | None => if String.eqb k' k then Some v else None
      end
  end.

End Auth.

(** ** The cursor loop: facts *)

Module PagingFacts.
Import Py Http Paging.

Section Loop.
Variables (method url_slug : string) (kwargs : gmap string pyval).

Lemma loop_more fuel prm data p rest out :
  has_more p = true ->
  pages_loop (S fuel) method url_slug kwargs prm data (Wire (page_reply p :: rest) out)
  = pages_loop fuel method url_slug kwargs (<["nextToken" := cursor p]> prm)
      (data ++ records p) (Wire rest (out ++ [page_request method url_slug kwargs prm])).
Proof.
  destruct p as [recs [t|]]; unfold has_more; cbn; intros Ht; [|discriminate].
  now rewrite Ht.
Qed.

Lemma loop_last fuel prm data p t rest out :
  next_token p = Some t -> truthy t = false ->
  pages_loop (S fuel) method url_slug kwargs prm data (Wire (page_reply p :: rest) out)
  = (Done (ret (data ++ records p)),
     Wire rest (out ++ [page_request method url_slug kwargs prm])).
Proof.
  destruct p as [recs tok]; cbn; intros -> Ht; cbn. now rewrite Ht.
Qed.

Lemma loop_absent fuel prm data p rest out :
  next_token p = None ->
  pages_loop (S fuel) method url_slug kwargs prm data (Wire (page_reply p :: rest) out)
  = (Done (raise (KeyError "next_token")),
     Wire rest (out ++ [page_request method url_slug kwargs prm])).
Proof.
  destruct p as [recs tok]; cbn; intros ->; reflexivity.
Qed.

Lemma loop_starved fuel prm data out :
  pages_loop (S fuel) method url_slug kwargs prm data (Wire [] out)
  = (Waiting, Wire [] (out ++ [page_request method url_slug kwargs prm])).
Proof. reflexivity. Qed.

Lemma loop_failed fuel prm data r rest out :
  400 <= status_code r < 600 ->
  pages_loop (S fuel) method url_slug kwargs prm data (Wire (ret r :: rest) out)
  = (Done (raise (HTTPError (status_code r) (body r))),
     Wire rest (out ++ [page_request method url_slug kwargs prm])).
Proof.
  intros [Hlo Hhi]. cbn. unfold raise_for_status.
  apply Z.leb_le in Hlo. apply Z.ltb_lt in Hhi. now rewrite Hlo, Hhi.
Qed.

(** Pages whose cursors all ask for more are consumed one by one. *)
Lemma loop_through ps : forall fuel prm data rest out,
  Forall (fun p => has_more p = true) ps ->
  pages_loop (length ps + fuel) method url_slug kwargs prm data
    (Wire (map page_reply ps ++ rest) out)
  = pages_loop fuel method url_slug kwargs (advance prm ps)
      (data ++ all_records ps)
      (Wire rest (out ++ map (page_request method url_slug kwargs) (trail prm ps))).
Proof.
  induction ps as [|p ps IH]; intros fuel prm data rest out Hall.
  - cbn. unfold all_records. cbn. now rewrite !app_nil_r.
  - inversion Hall as [|? ? Hp Hps]; subst.
    cbn [length Nat.add map app]. rewrite loop_more by exact Hp.
    rewrite IH by exact Hps. unfold all_records. cbn.
    now rewrite <- !app_assoc.
Qed.

(** A pass of the loop first puts its request on the wire, whatever
    comes back. *)
Lemma loop_first_request fuel prm data w :
  exists more,
    outbox (snd (pages_loop (S fuel) method url_slug kwargs prm data w))
    = outbox w ++ page_request method url_slug kwargs prm :: more.
Proof.
  assert (Hgrow : forall fuel prm data w, exists more,
    outbox (snd (pages_loop fuel method url_slug kwargs prm data w))
    = outbox w ++ more).
  { clear. intros fuel. induction fuel as [|fuel IH]; intros prm data [inb out].
    - exists []. cbn. now rewrite app_nil_r.
    - cbn. destruct inb as [|[e | r] inb]; cbn; try (eexists; reflexivity).
      destruct (raise_for_status r); cbn; try (eexists; reflexivity).
      destruct (json r); cbn; try (eexists; reflexivity).
      destruct (absorb data p) as [e | [data' tok]]; try (eexists; reflexivity).
      destruct (truthy tok); try (eexists; reflexivity).
      destruct (IH (<["nextToken" := tok]> prm) data'
                  (Wire inb (out ++ [Request method (REQUEST_URL +:+ "/" +:+ url_slug) (Some prm) kwargs])))
        as [more Hmore].
      rewrite Hmore. cbn. rewrite <- app_assoc. eexists; reflexivity. }
  destruct w as [inb out]. cbn.
  destruct inb as [|[e | r] inb]; cbn; try (exists []; reflexivity).
  destruct (raise_for_status r); cbn; try (exists []; reflexivity).
  destruct (json r); cbn; try (exists []; reflexivity).
  destruct (absorb data p) as [e | [data' tok]]; try (exists []; reflexivity).
  destruct (truthy tok); try (exists []; reflexivity).
  destruct (Hgrow fuel (<["nextToken" := tok]> prm) data'
              (Wire inb (out ++ [Request method (REQUEST_URL +:+ "/" +:+ url_slug) (Some prm) kwargs])))
    as [more Hmore].
  rewrite Hmore. cbn. rewrite <- app_assoc. exists more. reflexivity.
Qed.

Lemma trail_length ps : forall prm, length (trail prm ps) = length ps.
Proof. induction ps as [|p ps IH]; intros prm; cbn; [reflexivity | now rewrite IH]. Qed.

Lemma trail_snoc ps : forall prm p,
  trail prm (ps ++ [p]) = trail prm ps ++ [advance prm ps].
Proof.
  induction ps as [|q ps IH]; intros prm p; cbn; [reflexivity|].
  now rewrite IH.
Qed.

(** Each cursor overwrites the one before it: every request after
    the first carries the caller's parameters and one [nextToken]. *)
Lemma trail_from_start params0 ps : forall prm p,
  (forall t, <["nextToken" := t]> prm = <["nextToken" := t]> params0) ->
  trail prm (ps ++ [p])
  = prm :: map (fun q => <["nextToken" := cursor q]> params0) ps.
Proof.
  induction ps as [|q ps IH]; intros prm p Hprm; cbn; [reflexivity|].
  f_equal. rewrite IH.
  - now rewrite Hprm.
  - intros t. now rewrite insert_insert_eq.
Qed.

(** The call, once the pages [ps] have come in and asked for more. *)
Lemma paginate_through params ps rest :
  Forall (fun p => has_more p = true) ps ->
  _make_paginated_request method url_slug params kwargs
    (Wire (map page_reply ps ++ rest) [])
  = pages_loop (S (length rest)) method url_slug kwargs
      (advance (default ∅ params) ps) (all_records ps)
      (Wire rest (map (page_request method url_slug kwargs)
                    (trail (default ∅ params) ps))).
Proof.
  intros Hall. unfold _make_paginated_request. cbn [inbox].
  rewrite length_app, length_map.
  replace (S (length ps + length rest))%nat
    with (length ps + S (length rest))%nat by lia.
  now rewrite loop_through.
Qed.

Lemma paginate_returns params ps p t later :
  Forall (fun q => has_more q = true) ps ->
  next_token p = Some t -> truthy t = false ->
  _make_paginated_request method url_slug params kwargs
    (Wire (map page_reply (ps ++ [p]) ++ later) [])
  = (Done (ret (all_records (ps ++ [p]))),
     Wire later (map (page_request method url_slug kwargs)
                   (trail (default ∅ params) (ps ++ [p])))).
Proof.
  intros Hall Ht Hf. rewrite map_app, <- app_assoc. cbn [map app].
  rewrite paginate_through by exact Hall.
  rewrite (loop_last _ _ _ _ t) by assumption.
  rewrite trail_snoc, map_app. unfold all_records.
  rewrite map_app, concat_app. cbn. now rewrite app_nil_r.
Qed.

Lemma paginate_key_error params ps p later :
  Forall (fun q => has_more q = true) ps ->
  next_token p = None ->
  _make_paginated_request method url_slug params kwargs
    (Wire (map page_reply (ps ++ [p]) ++ later) [])
  = (Done (raise (KeyError "next_token")),
     Wire later (map (page_request method url_slug kwargs)
                   (trail (default ∅ params) (ps ++ [p])))).
Proof.
  intros Hall Ht. rewrite map_app, <- app_assoc. cbn [map app].
  rewrite paginate_through by exact Hall.
  rewrite loop_absent by assumption.
  now rewrite trail_snoc, map_app.
Qed.

Lemma paginate_waits params ps :
  Forall (fun q => has_more q = true) ps ->
  _make_paginated_request method url_slug params kwargs
    (Wire (map page_reply ps) [])
  = (Waiting,
     Wire [] (map (page_request method url_slug kwargs)
                (trail (default ∅ params) ps ++ [advance (default ∅ params) ps]))).
Proof.
  intros Hall. rewrite <- (app_nil_r (map page_reply ps)).
  rewrite paginate_through by exact Hall.
  rewrite loop_starved. now rewrite map_app.
Qed.

Lemma paginate_fails params ps r later :
  Forall (fun q => has_more q = true) ps ->
  400 <= status_code r < 600 ->
  _make_paginated_request method url_slug params kwargs
    (Wire (map page_reply ps ++ ret r :: later) [])
  = (Done (raise (HTTPError (status_code r) (body r))),
     Wire later (map (page_request method url_slug kwargs)
                   (trail (default ∅ params) ps ++ [advance (default ∅ params) ps]))).
Proof.
  intros Hall Hr. rewrite paginate_through by exact Hall.
  rewrite loop_failed by exact Hr. now rewrite map_app.
Qed.
End Loop.

(** Streams of pages: the first [n] replies of a server. *)
Lemma serve_prefix (pages : nat -> page) n :
  serve (fun i => page_reply (pages i)) n = Wire (map page_reply (prefix pages n)) [].
Proof. unfold serve, prefix. now rewrite map_map. Qed.

Lemma prefix_length (pages : nat -> page) n : length (prefix pages n) = n.
Proof. unfold prefix. now rewrite length_map, length_seq. Qed.

Lemma prefix_split (pages : nat -> page) k n :
  (k < n)%nat ->
  prefix pages n = (prefix pages k ++ [pages k]) ++ map pages (seq (S k) (n - S k)).
Proof.
  intros Hk. unfold prefix.
  replace n with (k + S (n - S k))%nat at 1 by lia.
  rewrite seq_app, map_app. cbn. now rewrite <- app_assoc.
Qed.

Lemma prefix_succ (pages : nat -> page) k :
  prefix pages (S k) = prefix pages k ++ [pages k].
Proof. unfold prefix. rewrite seq_S, map_app. reflexivity. Qed.

Lemma prefix_has_more (pages : nat -> page) n :
  (forall i, (i < n)%nat -> has_more (pages i) = true) ->
  Forall (fun p => has_more p = true) (prefix pages n).
Proof.
  intros H. unfold prefix. apply List.Forall_forall. intros p Hp.
  apply in_map_iff in Hp as (i & <- & Hi). apply in_seq in Hi. apply H. lia.
Qed.

(** Among the first [n] pages either one is exhausted or none is. *)
Lemma exhausted_within (pages : nat -> page) n :
  (exists i, (i < n)%nat /\ has_more (pages i) = false) \/
  (forall i, (i < n)%nat -> has_more (pages i) = true).
Proof.
  induction n as [|n [(i & Hi & He) | Hall]].
  - right. intros i Hi. lia.
  - left. exists i. split; [lia | exact He].
  - destruct (has_more (pages n)) eqn:En.
    + right. intros i Hi. destruct (Nat.eq_dec i n) as [-> | Hne]; [exact En|].
      apply Hall. lia.
    + left. exists n. split; [lia | exact En].
Qed.

(** An exhausted page has a first one before or at it. *)
Lemma first_exhausted_exists (pages : nat -> page) k :
  has_more (pages k) = false -> exists k', (k' <= k)%nat /\ first_exhausted pages k'.
Proof.
  induction k as [k IH] using lt_wf_ind. intros He.
  destruct (exhausted_within pages k) as [(i & Hi & Hie) | Hall].
  - destruct (IH i Hi Hie) as (k' & Hk' & Hfirst). exists k'. split; [lia | exact Hfirst].
  - exists k. split; [lia | split; assumption].
Qed.

(** C1: for every finite sequence of pages, all but the last asking
    for more, [_make_paginated_request] returns the records of the
    pages concatenated in the order received, nothing sorted and
    nothing dropped; it consumes exactly those pages, issues one
    request per page, the first with the caller's parameters and each
    later one with [nextToken] set to the cursor of the page before. *)
Theorem C1_records_in_fetch_order
    (method url_slug : string) (params : option (gmap string pyval))
    (kwargs : gmap string pyval) (ps : list page) (last : page) (t : pyval)
    (later : list reply) :
  Forall (fun p => has_more p = true) ps ->
  next_token last = Some t ->
  truthy t = false ->
  let out := _make_paginated_request method url_slug params kwargs
               (Wire (map page_reply (ps ++ [last]) ++ later) []) in
  fst out = Done (ret (concat (map records (ps ++ [last])))) /\
  inbox (snd out) = later /\
  length (outbox (snd out)) = length (ps ++ [last]) /\
  outbox (snd out)
  = map (page_request method url_slug kwargs)
      (default ∅ params
       :: map (fun p => <["nextToken" := cursor p]> (default ∅ params)) ps).
Proof.
  intros Hall Ht Hf out. subst out.
  rewrite (paginate_returns _ _ _ _ _ _ t) by assumption. cbn [fst snd inbox outbox].
  repeat split.
  - now rewrite length_map, trail_length.
  - now rewrite (trail_from_start (default ∅ params)).
Qed.

(** The two pages of the specification's example: [a, b] with cursor
    ["t1"], then [c] with a null cursor. *)
Lemma C1_two_pages_example :
  let P1 := Page [PStr "a"; PStr "b"] (Some (PStr "t1")) in
  let P2 := Page [PStr "c"] (Some PNone) in
  let out := _make_paginated_request "GET" "v1/cycle"
               (Some {[ "limit" := PInt 25 ]}) ∅
               (Wire (map page_reply ([P1] ++ [P2]) ++ []) []) in
  (Forall (fun p => has_more p = true) [P1] /\
   next_token P2 = Some PNone /\ truthy PNone = false) /\
  fst out = Done (ret [PStr "a"; PStr "b"; PStr "c"]) /\
  inbox (snd out) = [] /\
  length (outbox (snd out)) = 2%nat /\
  outbox (snd out)
  = [ page_request "GET" "v1/cycle" ∅ {[ "limit" := PInt 25 ]};
      page_request "GET" "v1/cycle" ∅
        (<["nextToken" := PStr "t1"]> {[ "limit" := PInt 25 ]}) ].
Proof.
  intros P1 P2 out.
  assert (H1 : Forall (fun p => has_more p = true) [P1])
    by (constructor; [reflexivity | constructor]).
  split; [split; [exact H1 | split; reflexivity]|].
  exact (C1_records_in_fetch_order "GET" "v1/cycle" (Some {[ "limit" := PInt 25 ]}) ∅
           [P1] P2 PNone [] H1 eq_refl eq_refl).
Defined.

(** After any pages, the parameters are the caller's with [nextToken]
    set to the cursor of the last page. *)
Lemma advance_overwrites (prm0 : gmap string pyval) qs : forall prm,
  (forall u, <["nextToken" := u]> prm = <["nextToken" := u]> prm0) ->
  forall u, <["nextToken" := u]> (advance prm qs) = <["nextToken" := u]> prm0.
Proof.
  induction qs as [|q qs IH]; intros prm Hprm u; cbn; [apply Hprm|].
  apply IH. intros v. now rewrite insert_insert_eq.
Qed.

Lemma advance_last (prm0 : gmap string pyval) ps p :
  advance prm0 (ps ++ [p]) = <["nextToken" := cursor p]> prm0.
Proof.
  unfold advance. rewrite fold_left_app. cbn.
  apply (advance_overwrites prm0 ps prm0). reflexivity.
Qed.

(** Truth of a cursor of the envelope's type, a string or null: a
    string is truthy exactly when it is not empty, null never. *)
Lemma truthy_cursor :
  (forall s, truthy (PStr s) = true <-> s <> "") /\ truthy PNone = false.
Proof.
  split; [|reflexivity]. intros [|c s]; cbn; split; congruence.
Qed.

(** C2, as the code has it: after pages that asked for more, a page
    whose [next_token] is present and truthy sends the loop round again
    with that value as [nextToken] of the next request; one whose
    [next_token] is present but empty or null ends the loop and the
    accumulated records are returned; one from which the field is
    missing makes the subscript raise [KeyError], and nothing is
    returned.  In each case the page costs exactly one request. *)
Theorem C2_cursor_decides
    (method url_slug : string) (params : option (gmap string pyval))
    (kwargs : gmap string pyval) (ps : list page) (p : page)
    (later : list reply) :
  Forall (fun q => has_more q = true) ps ->
  let out := _make_paginated_request method url_slug params kwargs
               (Wire (map page_reply (ps ++ [p]) ++ later) []) in
  match next_token p with
  | Some t =>
      if truthy t
      then exists more,
             outbox (snd out)
             = map (page_request method url_slug kwargs)
                 (trail (default ∅ params) (ps ++ [p]))
               ++ page_request method url_slug kwargs
                    (<["nextToken" := t]> (default ∅ params)) :: more
      else fst out = Done (ret (concat (map records (ps ++ [p])))) /\
           inbox (snd out) = later /\
           length (outbox (snd out)) = length (ps ++ [p])
  | None =>
      fst out = Done (raise (KeyError "next_token")) /\
      inbox (snd out) = later /\
      length (outbox (snd out)) = length (ps ++ [p])
  end.
Proof.
  intros Hall out. subst out.
  destruct (next_token p) as [t|] eqn:Ht.
  - destruct (truthy t) eqn:Htt.
    + assert (Hp : has_more p = true) by (unfold has_more; now rewrite Ht).
      assert (Hall' : Forall (fun q => has_more q = true) (ps ++ [p])).
      { apply Forall_app. split; [exact Hall | constructor; [exact Hp | constructor]]. }
      rewrite paginate_through by exact Hall'.
      destruct (loop_first_request method url_slug kwargs (length later)
                  (advance (default ∅ params) (ps ++ [p])) (all_records (ps ++ [p]))
                  (Wire later (map (page_request method url_slug kwargs)
                                 (trail (default ∅ params) (ps ++ [p])))))
        as [more Hmore].
      exists more. rewrite Hmore. cbn [outbox].
      rewrite advance_last. unfold cursor. rewrite Ht. reflexivity.
    + rewrite (paginate_returns _ _ _ _ _ _ t) by assumption.
      cbn [fst snd inbox outbox]. repeat split.
      now rewrite length_map, trail_length.
  - rewrite paginate_key_error by assumption.
    cbn [fst snd inbox outbox]. repeat split.
    now rewrite length_map, trail_length.
Qed.

(** A single page with records [a] and no [next_token] field. *)
Lemma C2_single_page_without_field :
  let p := Page [PStr "a"] None in
  let out := _make_paginated_request "GET" "v1/cycle" None ∅
               (Wire (map page_reply ([] ++ [p]) ++ []) []) in
  Forall (fun q => has_more q = true) [] /\
  fst out = Done (raise (KeyError "next_token")) /\
  inbox (snd out) = [] /\
  length (outbox (snd out)) = 1%nat.
Proof.
  intros p out. split; [constructor|].
  exact (C2_cursor_decides "GET" "v1/cycle" None ∅ [] p [] (List.Forall_nil _)).
Defined.

(** C2 as written fails on a page that omits [next_token]: the call
    issues its one request and then raises instead of returning the
    records gathered. *)
Lemma C2_absent_cursor_raises :
  let out := _make_paginated_request "GET" "v1/cycle" None ∅
               (Wire [page_reply (Page [PStr "a"] None)] []) in
  fst out = Done (raise (KeyError "next_token")) /\
  fst out <> Done (ret [PStr "a"]) /\
  length (outbox (snd out)) = 1%nat.
Proof.
  cbv zeta. split; [reflexivity | split; [|reflexivity]].
  intros H. vm_compute in H. discriminate H.
Qed.

(** C3: a response with a 4xx or 5xx status makes [_make_request]
    raise [HTTPError] with the status and the body, after one request
    and one reply; when it comes after pages that asked for more,
    [_make_paginated_request] raises the same error, returns no list at
    all, has issued one request per reply consumed and asks for none of
    the replies that would follow. *)
Theorem C3_http_failure_propagates
    (method url_slug : string) (params : option (gmap string pyval))
    (kwargs : gmap string pyval) (ps : list page) (r : response)
    (later : list reply) (sent : list request) :
  Forall (fun p => has_more p = true) ps ->
  400 <= status_code r < 600 ->
  _make_request method url_slug params kwargs (Wire (ret r :: later) sent)
  = (Done (raise (HTTPError (status_code r) (body r))),
     Wire later (sent ++ [Request method (REQUEST_URL +:+ "/" +:+ url_slug) params kwargs])) /\
  let out := _make_paginated_request method url_slug params kwargs
               (Wire (map page_reply ps ++ ret r :: later) []) in
  fst out = Done (raise (HTTPError (status_code r) (body r))) /\
  (forall data, fst out <> Done (ret data)) /\
  inbox (snd out) = later /\
  length (outbox (snd out)) = S (length ps).
Proof.
  intros Hall Hr. split.
  - destruct Hr as [Hlo Hhi]. cbn. unfold raise_for_status.
    apply Z.leb_le in Hlo. apply Z.ltb_lt in Hhi. now rewrite Hlo, Hhi.
  - intros out. subst out. rewrite paginate_fails by assumption.
    cbn [fst snd inbox outbox]. repeat split.
    + intros data H. discriminate H.
    + rewrite length_map, length_app, trail_length. cbn. lia.
Qed.

(** A 401 on the second page. *)
Lemma C3_unauthorized_second_page :
  let P1 := Page [PStr "a"; PStr "b"] (Some (PStr "t1")) in
  let r := Response 401 None in
  let out := _make_paginated_request "GET" "v1/recovery" None ∅
               (Wire (map page_reply [P1] ++ ret r :: []) []) in
  (Forall (fun p => has_more p = true) [P1] /\ 400 <= status_code r < 600) /\
  fst out = Done (raise (HTTPError 401 None)) /\
  (forall data, fst out <> Done (ret data)) /\
  inbox (snd out) = [] /\
  length (outbox (snd out)) = 2%nat.
Proof.
  intros P1 r out.
  assert (H1 : Forall (fun p => has_more p = true) [P1])
    by (constructor; [reflexivity | constructor]).
  assert (H2 : 400 <= status_code r < 600) by (cbn; lia).
  split; [split; assumption|].
  exact (proj2 (C3_http_failure_propagates "GET" "v1/recovery" None ∅ [P1] r [] [] H1 H2)).
Defined.

Section Streams.
Variables (method url_slug : string) (params : option (gmap string pyval))
          (kwargs : gmap string pyval) (pages : nat -> page).

(** The call against the first [n] replies of the stream. *)
Lemma run_waits n :
  (forall i, (i < n)%nat -> has_more (pages i) = true) ->
  let out := _make_paginated_request method url_slug params kwargs
               (serve (fun i => page_reply (pages i)) n) in
  fst out = Waiting /\ length (outbox (snd out)) = S n.
Proof.
  intros Hall out. subst out. rewrite serve_prefix.
  rewrite paginate_waits by now apply prefix_has_more.
  cbn [fst snd outbox]. split; [reflexivity|].
  rewrite length_map, length_app, trail_length, prefix_length. cbn. lia.
Qed.

Lemma run_stops k n :
  first_exhausted pages k -> (k < n)%nat ->
  let out := _make_paginated_request method url_slug params kwargs
               (serve (fun i => page_reply (pages i)) n) in
  fst out = Done (match next_token (pages k) with
                  | Some _ => ret (concat (map records (prefix pages (S k))))
                  | None => raise (KeyError "next_token")
                  end) /\
  length (outbox (snd out)) = S k /\
  length (inbox (snd out)) = (n - S k)%nat.
Proof.
  intros [Hk Hbefore] Hn out. subst out. rewrite serve_prefix.
  rewrite (prefix_split pages k n Hn), map_app.
  assert (Hall : Forall (fun p => has_more p = true) (prefix pages k))
    by now apply prefix_has_more.
  destruct (next_token (pages k)) as [t|] eqn:Ht.
  - assert (Hf : truthy t = false) by (unfold has_more in Hk; now rewrite Ht in Hk).
    rewrite (paginate_returns _ _ _ _ _ _ t) by assumption.
    cbn [fst snd inbox outbox]. rewrite prefix_succ. repeat split.
    + now rewrite length_map, trail_length, length_app, prefix_length, Nat.add_1_r.
    + now rewrite !length_map, length_seq.
  - rewrite paginate_key_error by assumption.
    cbn [fst snd inbox outbox]. repeat split.
    + now rewrite length_map, trail_length, length_app, prefix_length, Nat.add_1_r.
    + now rewrite !length_map, length_seq.
Qed.
End Streams.

(** C4: the loop counts no pages.  Against a stream of pages that all
    carry a truthy cursor the call never completes, and after [n]
    replies it has issued [n + 1] requests, for every [n]; if page [k]
    is the first whose cursor is empty, null or missing, the call
    completes on that page, after exactly [k + 1] requests, whatever
    the server would send next (returning the records of pages
    [0..k], or raising [KeyError] when the field is missing); and the
    call completes for some number of replies exactly when the stream
    has such a page. *)
Theorem C4_no_page_limit
    (method url_slug : string) (params : option (gmap string pyval))
    (kwargs : gmap string pyval) (pages : nat -> page) :
  let run n := _make_paginated_request method url_slug params kwargs
                 (serve (fun i => page_reply (pages i)) n) in
  ((forall i, has_more (pages i) = true) ->
   forall n, fst (run n) = Waiting /\ length (outbox (snd (run n))) = S n) /\
  (forall k, first_exhausted pages k ->
   forall n, (k < n)%nat ->
     fst (run n) = Done (match next_token (pages k) with
                         | Some _ => ret (concat (map records (prefix pages (S k))))
                         | None => raise (KeyError "next_token")
                         end) /\
     length (outbox (snd (run n))) = S k /\
     length (inbox (snd (run n))) = (n - S k)%nat) /\
  ((exists n, fst (run n) <> Waiting) <-> (exists k, has_more (pages k) = false)).
Proof.
  intros run. split; [|split].
  - intros Hall n. apply run_waits. intros i _. apply Hall.
  - intros k Hk n Hn. now apply run_stops.
  - split.
    + intros [n Hn].
      destruct (exhausted_within pages n) as [(i & _ & Hi) | Hall].
      * exists i. exact Hi.
      * exfalso. apply Hn. now apply run_waits.
    + intros [k Hk].
      destruct (first_exhausted_exists pages k Hk) as (k' & _ & Hfirst).
      exists (S k'). unfold run.
      destruct (run_stops method url_slug params kwargs pages k' (S k') Hfirst
                  (Nat.lt_succ_diag_r k')) as [Hres _].
      rewrite Hres. discriminate.
Qed.

(** A stream whose third page is the first with a null cursor, cut
    after five replies, and a stream whose cursors never run out. *)
Lemma C4_third_page_ends :
  let pages i := if (i <? 2)%nat then Page [PInt (Z.of_nat i)] (Some (PStr "more"))
                 else Page [PInt (Z.of_nat i)] (Some PNone) in
  let forever (i : nat) := Page [PInt (Z.of_nat i)] (Some (PStr "more")) in
  let run n := _make_paginated_request "GET" "v1/activity/sleep" None ∅
                 (serve (fun i => page_reply (pages i)) n) in
  let spin n := _make_paginated_request "GET" "v1/activity/sleep" None ∅
                 (serve (fun i => page_reply (forever i)) n) in
  (first_exhausted pages 2 /\ (2 < 5)%nat /\ forall i, has_more (forever i) = true) /\
  (fst (run 5%nat) = Done (ret [PInt 0; PInt 1; PInt 2]) /\
   length (outbox (snd (run 5%nat))) = 3%nat /\
   length (inbox (snd (run 5%nat))) = 2%nat) /\
  (fst (spin 7%nat) = Waiting /\ length (outbox (snd (spin 7%nat))) = 8%nat).
Proof.
  intros pages forever run spin.
  assert (H1 : first_exhausted pages 2).
  { split; [reflexivity|]. intros [|[|i]] Hi; [reflexivity | reflexivity | lia]. }
  assert (H2 : (2 < 5)%nat) by lia.
  assert (H3 : forall i, has_more (forever i) = true) by (intros i; reflexivity).
  split; [exact (conj H1 (conj H2 H3))|]. split.
  - exact (proj1 (proj2 (C4_no_page_limit "GET" "v1/activity/sleep" None ∅ pages)) 2%nat H1 5%nat H2).
  - exact (proj1 (C4_no_page_limit "GET" "v1/activity/sleep" None ∅ forever) H3 7%nat).
Defined.

End PagingFacts.

(** ** The token state: facts *)

Module ClientFacts.
Import Py Http Dates Client Tokens.

Lemma str_int_nonempty n : str_int n <> "".
Proof.
  unfold str_int. destruct (Z.to_int n) as [d | d]; cbn; [|discriminate].
  destruct d; cbn; discriminate.
Qed.

Lemma str_user_id_nonempty container_repr v :
  is_user_id v = true -> str container_repr v <> "".
Proof.
  destruct v as [| |n|[|c s]| |]; cbn; try discriminate; intros _.
  apply str_int_nonempty.
Qed.

Section Invariant.
Variable container_repr : pyval -> string.
Variable clock : nat -> datetime.
Variable fromisoformat : string -> result datetime.

(** With the identifier resolved, [authenticate] goes past its
    assignment. *)
Lemma authenticate_keeps_user_id answer c :
  user_id c <> "" ->
  user_id (snd (authenticate container_repr answer c)) = user_id c.
Proof.
  intros Hu. unfold authenticate, fetch_token.
  destruct answer as [e | payload]; cbn; [reflexivity|].
  destruct (user_id c) eqn:Hc; [congruence|]. cbn. exact Hc.
Qed.

Lemma invoke_keeps_user_id op x :
  user_id (self x) <> "" ->
  user_id (self (invoke container_repr clock fromisoformat op x)) = user_id (self x).
Proof.
  intros Hu. destruct op; cbn; try reflexivity.
  - now apply authenticate_keeps_user_id.
  - unfold collection. now destruct (get_cycle_collection _ _ _ _ _ _) as [[? ?] ?].
  - unfold collection. now destruct (get_recovery_collection _ _ _ _ _ _) as [[? ?] ?].
  - unfold collection. now destruct (get_sleep_collection _ _ _ _ _ _) as [[? ?] ?].
  - unfold collection. now destruct (get_workout_collection _ _ _ _ _ _) as [[? ?] ?].
Qed.
End Invariant.

(** C7: once [user_id] holds a non-empty string, no sequence of calls
    on the client changes it, whatever the servers answer; a later
    [authenticate] keeps it even when the new token payload names
    another user. *)
Theorem C7_user_id_never_changes
    (container_repr : pyval -> string) (clock : nat -> datetime)
    (fromisoformat : string -> result datetime)
    (ops : list call) (x : world) :
  user_id (self x) <> "" ->
  user_id (self (session container_repr clock fromisoformat ops x)) = user_id (self x).
Proof.
  revert x. induction ops as [|op ops IH]; intros x Hu; [reflexivity|].
  cbn. unfold session in IH. rewrite IH.
  - now apply invoke_keeps_user_id.
  - rewrite invoke_keeps_user_id; assumption.
Qed.

(** A client of user 10129 that authenticates again and is handed a
    token of user 20000, then fetches a profile and closes. *)
Lemma C7_second_token_other_user :
  let repr (_ : pyval) := "" in
  let clock (_ : nat) := Datetime (Date 2024 1 7) (Time 12 0 0 0) None in
  let c := Build_WhoopClient "me@example.com" "secret"
             (PDict [("access_token", PStr "t0"); ("user", PDict [("id", PInt 10129)])])
             "10129" false in
  let x := World c (Wire [ret (Response 200 (Some (PDict [])))] []) 0 in
  let other := PDict [("access_token", PStr "t1"); ("user", PDict [("id", PInt 20000)])] in
  let ops := [Authenticate (ret other); GetProfile; GetCycleCollection None None; Close] in
  user_id (self x) <> "" /\
  user_id (self (session repr clock parse_isoformat ops x)) = "10129" /\
  token (self (session repr clock parse_isoformat ops x)) = other.
Proof.
  intros repr clock c x other ops.
  assert (H : user_id (self x) <> "") by (cbn; discriminate).
  split; [exact H|]. split.
  - exact (C7_user_id_never_changes repr clock parse_isoformat ops x H).
  - reflexivity.
Defined.

(** C8, as the code has it: for a token payload that carries a user
    id, [authenticate] succeeds and stores the payload as the token, so
    [is_authenticated()] is true; on a client whose [user_id] was still
    empty, [user_id] becomes the string form of that id and is not
    empty; on a client whose [user_id] was already resolved it stays
    what it was. *)
Theorem C8_authenticate_resolves_user
    (container_repr : pyval -> string) (payload id : pyval) (c : WhoopClient) :
  carries_user_id payload id ->
  is_user_id id = true ->
  let out := authenticate container_repr (ret payload) c in
  fst out = ret tt /\
  token (snd out) = payload /\
  is_authenticated (snd out) = true /\
  (user_id c = "" ->
   user_id (snd out) = str container_repr id /\ user_id (snd out) <> "") /\
  (user_id c <> "" -> user_id (snd out) = user_id c).
Proof.
  intros (fields & user & -> & Huser & Hid) Hv out. subst out.
  unfold authenticate, fetch_token. cbn.
  destruct (user_id c) as [|ch u] eqn:Hc; cbn.
  - rewrite Huser. cbn. rewrite Hid. cbn.
    split; [reflexivity|]. split; [reflexivity|]. split; [reflexivity|]. split.
    + intros _. split; [reflexivity | now apply str_user_id_nonempty].
    + intros H. now contradiction H.
  - rewrite Hc.
    split; [reflexivity|]. split; [reflexivity|]. split; [reflexivity|]. split.
    + intros H. discriminate H.
    + intros _. reflexivity.
Qed.

(** The first token of a new client. *)
Lemma C8_first_token :
  let repr (_ : pyval) := "" in
  let payload := PDict [("access_token", PStr "t0"); ("user", PDict [("id", PInt 10129)])] in
  let c := Build_WhoopClient "me@example.com" "secret" PNone "" false in
  let out := authenticate repr (ret payload) c in
  (carries_user_id payload (PInt 10129) /\ is_user_id (PInt 10129) = true) /\
  fst out = ret tt /\
  token (snd out) = payload /\
  is_authenticated (snd out) = true /\
  user_id (snd out) = "10129".
Proof.
  intros repr payload c out.
  assert (H1 : carries_user_id payload (PInt 10129)).
  { exists [("access_token", PStr "t0"); ("user", PDict [("id", PInt 10129)])],
           [("id", PInt 10129)].
    repeat split. }
  assert (H2 : is_user_id (PInt 10129) = true) by reflexivity.
  split; [split; assumption|].
  destruct (C8_authenticate_resolves_user repr payload (PInt 10129) c H1 H2)
    as (Hr & Ht & Ha & Hnew & _).
  exact (conj Hr (conj Ht (conj Ha (proj1 (Hnew eq_refl))))).
Defined.

(** C8 as written fails on a client whose [user_id] is already set:
    the token of another user is stored, [user_id] is not touched. *)
Lemma C8_resolved_id_is_kept :
  let repr (_ : pyval) := "" in
  let payload := PDict [("access_token", PStr "t1"); ("user", PDict [("id", PInt 20000)])] in
  let c := Build_WhoopClient "me@example.com" "secret"
             (PDict [("access_token", PStr "t0"); ("user", PDict [("id", PInt 10129)])])
             "10129" false in
  let out := authenticate repr (ret payload) c in
  fst out = ret tt /\
  is_authenticated (snd out) = true /\
  str repr (PInt 20000) = "20000" /\
  user_id (snd out) = "10129" /\
  user_id (snd out) <> str repr (PInt 20000).
Proof.
  cbv zeta. repeat split. intros H. vm_compute in H. discriminate H.
Qed.

(** C9, as the code has it: when the authorization endpoint turns the
    credentials down, [authenticate] raises the endpoint's error and
    leaves the client as it was, so [is_authenticated()] answers as
    before, false on a client that held no token.  A token payload
    without [user] or [user.id] is no failure: on a client whose
    [user_id] is still empty the call succeeds, the payload is stored,
    [is_authenticated()] is true and [user_id] stays empty. *)
Theorem C9_rejection_leaves_client
    (container_repr : pyval -> string) (c : WhoopClient) :
  (forall e,
     authenticate container_repr (raise e) c = (raise e, c) /\
     (is_authenticated c = false ->
      is_authenticated (snd (authenticate container_repr (raise e) c)) = false)) /\
  (forall payload,
     lacks_user_id payload ->
     user_id c = "" ->
     authenticate container_repr (ret payload) c = (ret tt, set_token payload c) /\
     is_authenticated (snd (authenticate container_repr (ret payload) c)) = true /\
     user_id (snd (authenticate container_repr (ret payload) c)) = "").
Proof.
  split.
  - intros e. split; [reflexivity | intros H; exact H].
  - intros payload (fields & -> & Hlack) Hu.
    assert (Hgo : authenticate container_repr (ret (PDict fields)) c
                  = (ret tt, set_token (PDict fields) c)).
    { unfold authenticate, fetch_token. cbn. rewrite Hu. cbn.
      destruct Hlack as [Hnone | (user & Hsome & Hnone)].
      - rewrite Hnone. cbn. unfold set_user_id, set_token. cbn. now rewrite Hu.
      - rewrite Hsome. cbn. rewrite Hnone. cbn.
        unfold set_user_id, set_token. cbn. now rewrite Hu. }
    rewrite Hgo. cbn. repeat split. exact Hu.
Qed.

(** A new client, turned down once and then handed a token that names
    no user. *)
Lemma C9_rejected_then_anonymous :
  let repr (_ : pyval) := "" in
  let c := Build_WhoopClient "me@example.com" "wrong" PNone "" false in
  let denied := OtherError "invalid_grant" in
  let payload := PDict [("access_token", PStr "t0")] in
  (is_authenticated c = false /\ lacks_user_id payload /\ user_id c = "") /\
  authenticate repr (raise denied) c = (raise denied, c) /\
  is_authenticated (snd (authenticate repr (raise denied) c)) = false /\
  authenticate repr (ret payload) c = (ret tt, set_token payload c).
Proof.
  intros repr c denied payload.
  assert (H1 : is_authenticated c = false) by reflexivity.
  assert (H2 : lacks_user_id payload).
  { exists [("access_token", PStr "t0")]. split; [reflexivity | left; reflexivity]. }
  assert (H3 : user_id c = "") by reflexivity.
  split; [exact (conj H1 (conj H2 H3))|].
  destruct (C9_rejection_leaves_client repr c) as [Hrej Hacc].
  destruct (Hrej denied) as [Heq Hno].
  destruct (Hacc payload H2 H3) as [Hgo _].
  exact (conj Heq (conj (Hno H1) Hgo)).
Defined.

(** C9 as written fails on a token payload that lacks [user.id]: the
    call does not raise, and the client is authenticated afterwards. *)
Lemma C9_missing_user_id_accepted :
  let repr (_ : pyval) := "" in
  let c := Build_WhoopClient "me@example.com" "secret" PNone "" false in
  let payload := PDict [("access_token", PStr "t0"); ("user", PDict [])] in
  let out := authenticate repr (ret payload) c in
  is_authenticated c = false /\
  fst out = ret tt /\
  (forall e, fst out <> raise e) /\
  is_authenticated (snd out) = true /\
  snd out <> c.
Proof.
  cbv zeta. repeat split; intros; discriminate.
Qed.

End ClientFacts.

(** ** The date range: facts *)

Module DatesFacts.
Import Py Dates Ranges.

Lemma all_days_spec check count : forall lo,
  all_days check lo count = true ->
  forall n, lo < n <= lo + Z.of_nat count -> check n = true.
Proof.
  induction count as [|count IH]; intros lo H n Hn; [lia|].
  cbn [all_days] in H. destruct (check (lo + 1)) eqn:Hc; [|discriminate].
  destruct (Z.eq_dec n (lo + 1)) as [-> | Hne]; [exact Hc|].
  apply (IH (lo + 1) H). lia.
Qed.

Lemma days_before_year_shift y q :
  _days_before_year (y + 400 * q) = _days_before_year y + _DI400Y * q.
Proof. unfold _days_before_year, _DI400Y. Z.to_euclidean_division_equations. lia. Qed.

Lemma is_leap_shift y q : _is_leap (y + 400 * q) = _is_leap y.
Proof.
  unfold _is_leap.
  replace ((y + 400 * q) mod 4) with (y mod 4)
    by (Z.to_euclidean_division_equations; lia).
  replace ((y + 400 * q) mod 100) with (y mod 100)
    by (Z.to_euclidean_division_equations; lia).
  replace ((y + 400 * q) mod 400) with (y mod 400)
    by (Z.to_euclidean_division_equations; lia).
  reflexivity.
Qed.

Lemma toordinal_shift q d :
  toordinal (later_years (400 * q) d) = toordinal d + _DI400Y * q.
Proof.
  unfold toordinal, later_years, _ymd2ord, _days_before_month. cbn [year month day].
  rewrite days_before_year_shift, is_leap_shift. lia.
Qed.

Lemma valid_date_shift q d :
  valid_date d = true -> 0 <= q -> year d + 400 * q <= 9999 ->
  valid_date (later_years (400 * q) d) = true.
Proof.
  unfold valid_date, later_years, _days_in_month. cbn [year month day].
  rewrite is_leap_shift. intros H Hq Hy.
  repeat (apply andb_prop in H as [H ?]).
  repeat (apply andb_true_intro; split); try assumption; lia.
Qed.

Lemma ord2ymd_shift q r :
  0 <= r < _DI400Y ->
  _ord2ymd (_DI400Y * q + r + 1) = later_years (400 * q) (_ord2ymd (r + 1)).
Proof.
  intros Hr. unfold _ord2ymd.
  replace ((_DI400Y * q + r + 1 - 1) / _DI400Y) with q
    by (unfold _DI400Y in *; Z.to_euclidean_division_equations; lia).
  replace ((_DI400Y * q + r + 1 - 1) mod _DI400Y) with r
    by (unfold _DI400Y in *; Z.to_euclidean_division_equations; lia).
  replace ((r + 1 - 1) / _DI400Y) with 0
    by (unfold _DI400Y in *; Z.to_euclidean_division_equations; lia).
  replace ((r + 1 - 1) mod _DI400Y) with r
    by (unfold _DI400Y in *; Z.to_euclidean_division_equations; lia).
  cbv zeta.
  repeat match goal with
         | |- context [if ?b then _ else _] =>
             match b with
             | context [if _ then _ else _] => fail 1
             | _ => destruct b
             end
         end; unfold later_years; cbn [year month day]; f_equal; lia.
Qed.


Lemma valid_date_inv d :
  valid_date d = true ->
  1 <= year d <= 9999 /\ 1 <= month d <= 12 /\
  1 <= day d <= _days_in_month (year d) (month d).
Proof.
  unfold valid_date. intros H.
  repeat (apply andb_prop in H as [H ?]).
  repeat match goal with
         | H : (_ <=? _) = true |- _ => apply Z.leb_le in H
         end.
  lia.
Qed.

Lemma month_cases m :
  1 <= m <= 12 ->
  m = 1 \/ m = 2 \/ m = 3 \/ m = 4 \/ m = 5 \/ m = 6 \/
  m = 7 \/ m = 8 \/ m = 9 \/ m = 10 \/ m = 11 \/ m = 12.
Proof. lia. Qed.

Ltac each_month m H :=
  destruct (month_cases m H)
    as [-> | [-> | [-> | [-> | [-> | [-> | [-> | [-> | [-> | [-> | [-> | ->]]]]]]]]]]].

(** The days of a year before a month, and through it. *)
Lemma days_before_month_bounds y m :
  1 <= m <= 12 ->
  0 <= _days_before_month y m /\
  _days_before_month y m + _days_in_month y m
  <= 365 + (if _is_leap y then 1 else 0).
Proof.
  intros H. unfold _days_before_month, _days_in_month.
  each_month m H; cbn; destruct (_is_leap y); cbn; lia.
Qed.

Lemma days_before_month_next y m m' :
  1 <= m -> m < m' -> m' <= 12 ->
  _days_before_month y m + _days_in_month y m <= _days_before_month y m'.
Proof.
  intros H1 H2 H3. unfold _days_before_month, _days_in_month.
  assert (Hm : 1 <= m <= 12) by lia. assert (Hm' : 1 <= m' <= 12) by lia.
  each_month m Hm; each_month m' Hm'; try lia; cbn; destruct (_is_leap y); cbn; lia.
Qed.

(** A year has 365 days, and one more when it is a leap year. *)
Lemma days_before_year_next y :
  _days_before_year (y + 1) = _days_before_year y + 365 + (if _is_leap y then 1 else 0).
Proof.
  unfold _days_before_year, _is_leap.
  destruct (Z.eqb_spec (y mod 4) 0); destruct (Z.eqb_spec (y mod 100) 0);
    destruct (Z.eqb_spec (y mod 400) 0); cbn;
    Z.to_euclidean_division_equations; lia.
Qed.

Lemma days_before_year_mono a b : a <= b -> _days_before_year a <= _days_before_year b.
Proof. unfold _days_before_year. intros. Z.to_euclidean_division_equations. lia. Qed.

Lemma toordinal_within_year d :
  valid_date d = true ->
  _days_before_year (year d) < toordinal d <= _days_before_year (year d + 1).
Proof.
  intros H. apply valid_date_inv in H as (Hy & Hm & Hd).
  pose proof (days_before_month_bounds (year d) (month d) Hm) as [H0 H1].
  rewrite days_before_year_next. unfold toordinal, _ymd2ord. lia.
Qed.

Lemma toordinal_bounds d :
  valid_date d = true -> 1 <= toordinal d <= _MAXORDINAL.
Proof.
  intros H. pose proof (toordinal_within_year d H) as [Hlo Hhi].
  apply valid_date_inv in H as (Hy & _ & _).
  pose proof (days_before_year_mono 1 (year d) ltac:(lia)) as H1.
  pose proof (days_before_year_mono (year d + 1) 10000 ltac:(lia)) as H2.
  change (_days_before_year 1) with 0 in H1.
  change (_days_before_year 10000) with _MAXORDINAL in H2. lia.
Qed.

Lemma date_gt_inv a b :
  date_gt a b = true ->
  year b < year a \/
  (year a = year b /\ (month b < month a \/ (month a = month b /\ day b < day a))).
Proof.
  unfold date_gt. cbn. intros H.
  repeat match type of H with
         | (_ || _) = true => apply orb_prop in H as [H | H]
         | (_ && _) = true => apply andb_prop in H as [? H]
         end;
  repeat match goal with
         | H : (_ <? _) = true |- _ => apply Z.ltb_lt in H
         | H : (_ =? _) = true |- _ => apply Z.eqb_eq in H
         end; try discriminate; lia.
Qed.

(** A later date has a larger ordinal. *)
Lemma toordinal_mono a b :
  valid_date a = true -> valid_date b = true ->
  date_gt a b = true -> toordinal b < toordinal a.
Proof.
  intros Ha Hb Hgt.
  pose proof (toordinal_within_year a Ha) as [Ha1 Ha2].
  pose proof (toordinal_within_year b Hb) as [Hb1 Hb2].
  apply valid_date_inv in Ha as (Hya & Hma & Hda).
  apply valid_date_inv in Hb as (Hyb & Hmb & Hdb).
  destruct (date_gt_inv a b Hgt) as [Hy | [Ey [Hm | [Em Hd]]]].
  - pose proof (days_before_year_mono (year b + 1) (year a) ltac:(lia)). lia.
  - unfold toordinal, _ymd2ord. rewrite Ey.
    pose proof (days_before_month_next (year b) (month b) (month a)
                  ltac:(lia) Hm ltac:(lia)). lia.
  - unfold toordinal, _ymd2ord. rewrite Ey, Em. lia.
Qed.

Lemma year_days_fit leapyear : all_days (month_day_fits leapyear) 0 365 = true.
Proof. destruct leapyear; vm_compute; reflexivity. Qed.

Lemma month_day_spec n leapyear :
  0 <= n < 365 ->
  let m := fst (month_day n leapyear) in
  let d := snd (month_day n leapyear) in
  1 <= m <= 12 /\
  1 <= d <= _DAYS_IN_MONTH m + (if (m =? 2) && leapyear then 1 else 0) /\
  _DAYS_BEFORE_MONTH m + (if (2 <? m) && leapyear then 1 else 0) + d = n + 1.
Proof.
  intros Hn m d.
  pose proof (all_days_spec _ _ 0 (year_days_fit leapyear) (n + 1) ltac:(lia)) as H.
  unfold month_day_fits in H. replace (n + 1 - 1) with n in H by lia.
  subst m d. destruct (month_day n leapyear) as [m d]. cbn [fst snd].
  repeat (apply andb_prop in H as [H ?]).
  repeat match goal with
         | H : (_ <=? _) = true |- _ => apply Z.leb_le in H
         | H : (_ =? _) = true |- _ => apply Z.eqb_eq in H
         end.
  lia.
Qed.

(** The day of a 400-year cycle, by century, four-year block and year. *)
Lemma ord2ymd_in_cycle r :
  0 <= r < _DI400Y ->
  let n100 := r / _DI100Y in
  let n4 := (r mod _DI100Y) / _DI4Y in
  let n1 := ((r mod _DI100Y) mod _DI4Y) / 365 in
  let n := ((r mod _DI100Y) mod _DI4Y) mod 365 in
  let y := 1 + n100 * 100 + n4 * 4 + n1 in
  let leapyear := (n1 =? 3) && (negb (n4 =? 24) || (n100 =? 3)) in
  _ord2ymd (r + 1)
  = if (n1 =? 4) || (n100 =? 4) then Date (y - 1) 12 31
    else Date y (fst (month_day n leapyear)) (snd (month_day n leapyear)).
Proof.
  intros Hr. cbv zeta. unfold _ord2ymd, month_day.
  replace (r + 1 - 1) with r by lia.
  rewrite (Z.div_small r _DI400Y Hr), (Z.mod_small r _DI400Y Hr).
  cbv zeta.
  generalize (r / _DI100Y) as n100.
  generalize ((r mod _DI100Y) / _DI4Y) as n4.
  generalize (((r mod _DI100Y) mod _DI4Y) / 365) as n1.
  generalize (((r mod _DI100Y) mod _DI4Y) mod 365) as n.
  intros n n1 n4 n100.
  destruct ((n1 =? 4) || (n100 =? 4)); [f_equal; lia|].
  match goal with
  | |- context [if ?b then Date _ _ _ else Date _ _ _] => destruct b
  end; cbn [fst snd]; f_equal; lia.
Qed.

Lemma leap_in_cycle n100 n4 n1 :
  0 <= n100 <= 3 -> 0 <= n4 <= 24 -> 0 <= n1 <= 3 ->
  _is_leap (1 + n100 * 100 + n4 * 4 + n1)
  = (n1 =? 3) && (negb (n4 =? 24) || (n100 =? 3)).
Proof.
  intros H100 H4 H1. unfold _is_leap.
  destruct (Z.eqb_spec n1 3); destruct (Z.eqb_spec n4 24); destruct (Z.eqb_spec n100 3);
    destruct (Z.eqb_spec ((1 + n100 * 100 + n4 * 4 + n1) mod 4) 0);
    destruct (Z.eqb_spec ((1 + n100 * 100 + n4 * 4 + n1) mod 100) 0);
    destruct (Z.eqb_spec ((1 + n100 * 100 + n4 * 4 + n1) mod 400) 0);
    try reflexivity; exfalso; Z.to_euclidean_division_equations; lia.
Qed.

Lemma days_before_year_in_cycle n100 n4 n1 :
  0 <= n100 <= 3 -> 0 <= n4 <= 24 -> 0 <= n1 <= 3 ->
  _days_before_year (1 + n100 * 100 + n4 * 4 + n1)
  = n100 * _DI100Y + n4 * _DI4Y + n1 * 365.
Proof.
  intros H100 H4 H1. unfold _days_before_year, _DI100Y, _DI4Y.
  Z.to_euclidean_division_equations. lia.
Qed.

Lemma cycle_facts r :
  0 <= r < _DI400Y ->
  toordinal (_ord2ymd (r + 1)) = r + 1 /\
  valid_date (_ord2ymd (r + 1)) = true /\
  year (_ord2ymd (r + 1)) <= 400.
Proof.
  intros Hr. rewrite (ord2ymd_in_cycle r Hr). cbv zeta.
  assert (E400 : _DI400Y = 146097) by reflexivity.
  assert (E100 : _DI100Y = 36524) by reflexivity.
  assert (E4 : _DI4Y = 1461) by reflexivity.
  pose proof (Z.div_mod r _DI100Y ltac:(discriminate)) as D100.
  pose proof (Z.mod_pos_bound r _DI100Y ltac:(reflexivity)) as B100.
  pose proof (Z.div_mod (r mod _DI100Y) _DI4Y ltac:(discriminate)) as D4.
  pose proof (Z.mod_pos_bound (r mod _DI100Y) _DI4Y ltac:(reflexivity)) as B4.
  pose proof (Z.div_mod ((r mod _DI100Y) mod _DI4Y) 365 ltac:(discriminate)) as D1.
  pose proof (Z.mod_pos_bound ((r mod _DI100Y) mod _DI4Y) 365 ltac:(reflexivity)) as B1.
  revert D100 B100 D4 B4 D1 B1.
  generalize (((r mod _DI100Y) mod _DI4Y) mod 365) as n.
  generalize (((r mod _DI100Y) mod _DI4Y) / 365) as n1.
  generalize ((r mod _DI100Y) mod _DI4Y) as r2.
  generalize ((r mod _DI100Y) / _DI4Y) as n4.
  generalize (r mod _DI100Y) as r1.
  generalize (r / _DI100Y) as n100.
  intros n100 r1 n4 r2 n1 n D100 B100 D4 B4 D1 B1.
  assert (H100 : 0 <= n100 <= 4) by lia.
  assert (H4 : 0 <= n4 <= 24) by lia.
  assert (H1 : 0 <= n1 <= 4) by lia.
  destruct (Z.eqb_spec n100 4) as [E | N100].
  - (* the last day of the cycle *)
    assert (Er : r = 146096) by lia.
    assert (En4 : n4 = 0) by lia. assert (En1 : n1 = 0) by lia.
    rewrite Er, E, En4, En1, orb_true_r.
    split; [reflexivity | split; [reflexivity | discriminate]].
  - destruct (Z.eqb_spec n1 4) as [E | N1]; cbn [orb].
    + (* the last day of a leap year *)
      assert (Hn4 : 0 <= n4 <= 23) by lia.
      subst n1. replace (1 + n100 * 100 + n4 * 4 + 4 - 1) with (1 + n100 * 100 + n4 * 4 + 3) by lia.
      assert (Hleap : _is_leap (1 + n100 * 100 + n4 * 4 + 3) = true).
      { rewrite leap_in_cycle by lia.
        destruct (Z.eqb_spec n4 24); [lia | reflexivity]. }
      unfold toordinal, valid_date, _ymd2ord, _days_before_month, _days_in_month.
      cbn [year month day]. rewrite Hleap, days_before_year_in_cycle by lia.
      cbn. repeat split; try lia.
    + (* a day with a month and a day of the month *)
      assert (Hn1 : 0 <= n1 <= 3) by lia. assert (Hn100 : 0 <= n100 <= 3) by lia.
      assert (Hn : 0 <= n < 365) by lia.
      pose proof (month_day_spec n ((n1 =? 3) && (negb (n4 =? 24) || (n100 =? 3))) Hn)
        as (Hm & Hd & Hsum).
      revert Hm Hd Hsum.
      generalize (month_day n ((n1 =? 3) && (negb (n4 =? 24) || (n100 =? 3)))).
      intros [m d]. cbn [fst snd]. intros Hm Hd Hsum.
      unfold toordinal, valid_date, _ymd2ord, _days_before_month, _days_in_month.
      cbn [year month day].
      rewrite leap_in_cycle, days_before_year_in_cycle by lia.
      split; [lia|]. split; [|lia].
      repeat (apply andb_true_intro; split); try (apply Z.leb_le; lia).
      apply Z.leb_le.
      destruct ((m =? 2) && ((n1 =? 3) && (negb (n4 =? 24) || (n100 =? 3)))) eqn:Hfeb;
        [|lia].
      apply andb_prop in Hfeb as [Hfeb _]. apply Z.eqb_eq in Hfeb. subst m.
      cbn in Hd. lia.
Qed.

Lemma year_400_starts d :
  valid_date d = true -> 400 <= year d -> 145731 < toordinal d.
Proof.
  intros Hv Hy.
  pose proof (toordinal_within_year _ Hv) as [Hlo _].
  pose proof (days_before_year_mono 400 (year d) Hy) as Hmono.
  assert (E : _days_before_year 400 = 145731) by reflexivity.
  lia.
Qed.

(** Every day of the calendar comes back from its date. *)
Lemma ord2ymd_round_trip n :
  1 <= n <= _MAXORDINAL ->
  toordinal (_ord2ymd n) = n /\ valid_date (_ord2ymd n) = true.
Proof.
  intros Hn.
  assert (E400 : _DI400Y = 146097) by reflexivity.
  assert (EMAX : _MAXORDINAL = 3652059) by reflexivity.
  pose proof (Z.div_mod (n - 1) _DI400Y ltac:(discriminate)) as Hdm.
  pose proof (Z.mod_pos_bound (n - 1) _DI400Y ltac:(reflexivity)) as Hr.
  revert Hdm Hr.
  generalize ((n - 1) / _DI400Y) as q. generalize ((n - 1) mod _DI400Y) as r.
  intros r q Hdm Hr.
  assert (En : n = _DI400Y * q + r + 1) by lia.
  assert (Hq : 0 <= q <= 24) by lia.
  destruct (cycle_facts r Hr) as (Ho & Hv & Hy).
  subst n. rewrite ord2ymd_shift by exact Hr. split.
  - rewrite toordinal_shift, Ho. lia.
  - apply valid_date_shift; [exact Hv | lia |].
    destruct (Z.eq_dec q 24) as [Eq | Nq]; [|lia].
    destruct (Z_lt_le_dec (year (_ord2ymd (r + 1))) 400) as [Hlt | Hge]; [lia|].
    pose proof (year_400_starts _ Hv Hge) as Hlate. lia.
Qed.

Lemma append_assoc (a b c : string) : (a +:+ b) +:+ c = a +:+ (b +:+ c).
Proof.
  induction a as [|ch a IH]; [reflexivity|].
  change (String ch ((a +:+ b) +:+ c) = String ch (a +:+ (b +:+ c))).
  now rewrite IH.
Qed.

(** Between the first instant of one day and the last of another,
    only the dates decide the order. *)
Lemma datetime_gt_days a b :
  datetime_gt (combine a time_min) (combine b time_max) = date_gt (dt_date a) (dt_date b).
Proof.
  unfold datetime_gt, date_gt, fields, combine. cbn.
  now rewrite !andb_false_r, !orb_false_r.
Qed.

Lemma isoformat_day_start a :
  isoformat (combine a time_min) +:+ "Z" = day_start (dt_date a).
Proof.
  unfold isoformat, isoformat_sep, day_start, combine. cbn [dt_date dt_time].
  change (format_auto time_min) with "00:00:00".
  now rewrite append_assoc.
Qed.

Lemma isoformat_day_end b :
  isoformat_seconds (combine b time_max) +:+ "Z" = day_end (dt_date b).
Proof.
  unfold isoformat_seconds, day_end, combine. cbn [dt_date dt_time].
  change (format_seconds time_max) with "23:59:59".
  now rewrite append_assoc.
Qed.

Lemma range_message a b :
  ValueError ("Start datetime greater than end datetime: "
              +:+ str_datetime (combine a time_min) +:+ " > "
              +:+ str_datetime (combine b time_max))
  = range_error (dt_date a) (dt_date b).
Proof.
  unfold range_error, str_datetime, isoformat_sep, combine. cbn [dt_date dt_time].
  change (format_auto time_min) with "00:00:00".
  change (format_auto time_max) with "23:59:59.999999".
  f_equal. f_equal. now rewrite append_assoc.
Qed.

Section Unfold.
Variable clock : nat -> datetime.
Variable fromisoformat : string -> result datetime.

(** [_format_dates] by its two sources: only the dates they yield
    reach the result. *)
Lemma format_dates_by_days start_date end_date tick :
  _format_dates clock fromisoformat start_date end_date tick
  = match end_source clock fromisoformat end_date tick with
    | (inl e, t1) => (inl e, t1)
    | (inr end_day, t1) =>
        match start_source clock fromisoformat start_date t1 with
        | (inl e, t2) => (inl e, t2)
        | (inr start_day, t2) =>
            (if date_gt (dt_date start_day) (dt_date end_day)
             then raise (range_error (dt_date start_day) (dt_date end_day))
             else ret (day_start (dt_date start_day), day_end (dt_date end_day)),
             t2)
        end
    end.
Proof.
  assert (Htail : forall start_day end_day t2,
    (if datetime_gt (combine start_day time_min) (combine end_day time_max)
     then lift (raise (ValueError
                 ("Start datetime greater than end datetime: "
                  +:+ str_datetime (combine start_day time_min) +:+ " > "
                  +:+ str_datetime (combine end_day time_max))))
     else cret (isoformat (combine start_day time_min) +:+ "Z",
                isoformat_seconds (combine end_day time_max) +:+ "Z")) t2
    = (if date_gt (dt_date start_day) (dt_date end_day)
       then raise (range_error (dt_date start_day) (dt_date end_day))
       else ret (day_start (dt_date start_day), day_end (dt_date end_day)),
       t2)).
  { intros start_day end_day t2. rewrite datetime_gt_days.
    destruct (date_gt (dt_date start_day) (dt_date end_day)).
    - unfold lift. now rewrite range_message.
    - unfold cret. now rewrite isoformat_day_start, isoformat_day_end. }
  unfold _format_dates, end_source, start_source, cbind.
  unfold today, lift, cret, ret, raise in *.
  destruct end_date as [[|c1 s1]|]; destruct start_date as [[|c2 s2]|];
    cbv beta iota;
    repeat match goal with
           | |- context [fromisoformat ?s] => destruct (fromisoformat s); try reflexivity
           | |- context [minus_days ?d ?n] => destruct (minus_days d n); try reflexivity
           end;
    apply Htail.
Qed.

Lemma end_source_given s d tick :
  s <> "" -> fromisoformat s = ret d ->
  end_source clock fromisoformat (Some s) tick = (inr d, tick).
Proof. destruct s; [congruence|]. intros _ H. cbn. unfold lift. now rewrite H. Qed.

Lemma start_source_given s d tick :
  s <> "" -> fromisoformat s = ret d ->
  start_source clock fromisoformat (Some s) tick = (inr d, tick).
Proof. destruct s; [congruence|]. intros _ H. cbn. unfold lift. now rewrite H. Qed.

Lemma end_source_default tick :
  end_source clock fromisoformat None tick = (inr (clock tick), S tick).
Proof. reflexivity. Qed.

Lemma start_source_default tick :
  start_source clock fromisoformat None tick = (minus_days (clock tick) 6, S tick).
Proof. reflexivity. Qed.
End Unfold.

Lemma date_gt_irrefl d : date_gt d d = false.
Proof.
  unfold date_gt. cbn. rewrite !Z.ltb_irrefl, !Z.eqb_refl. reflexivity.
Qed.

(** Six days back from a valid date, when the calendar reaches that
    far: the date whose ordinal is six less, never a later one. *)
Lemma minus_six_days dt :
  valid_date (dt_date dt) = true -> 6 < toordinal (dt_date dt) ->
  exists start_day,
    minus_days dt 6 = ret start_day /\
    toordinal (dt_date start_day) = toordinal (dt_date dt) - 6 /\
    valid_date (dt_date start_day) = true /\
    date_gt (dt_date start_day) (dt_date dt) = false.
Proof.
  intros Hv H6. pose proof (toordinal_bounds _ Hv) as [_ Hmax].
  assert (Hn : 1 <= toordinal (dt_date dt) - 6 <= _MAXORDINAL) by lia.
  destruct (ord2ymd_round_trip _ Hn) as [Hback Hvalid].
  exists (Datetime (_ord2ymd (toordinal (dt_date dt) - 6)) (dt_time dt) (tzinfo dt)).
  split; [|split; [exact Hback | split; [exact Hvalid|]]].
  - unfold minus_days.
    assert (H0 : (0 <? toordinal (dt_date dt) - 6) = true) by (apply Z.ltb_lt; lia).
    assert (H1 : (toordinal (dt_date dt) - 6 <=? _MAXORDINAL) = true) by (apply Z.leb_le; lia).
    now rewrite H0, H1.
  - cbn [dt_date].
    destruct (date_gt (_ord2ymd (toordinal (dt_date dt) - 6)) (dt_date dt)) eqn:Hgt;
      [|reflexivity].
    pose proof (toordinal_mono _ _ Hvalid Hv Hgt). lia.
Qed.


(** C5, at the input where the code misses it: no dates are given, the
    first reading of the clock is the last microsecond of 2024-01-07
    and the second reading, taken for the start, is already on
    2024-01-08.  The end is 2024-01-07T23:59:59Z but the start is
    2024-01-02T00:00:00Z, five days before the end date and not six. *)
Theorem C5_midnight_between_readings :
  let clock (i : nat) :=
    match i with
    | O => Datetime (Date 2024 1 7) (Time 23 59 59 999999) None
    | S _ => Datetime (Date 2024 1 8) (Time 0 0 0 1) None
    end in
  _format_dates clock parse_isoformat None None 0%nat
  = (ret ("2024-01-02T00:00:00Z", "2024-01-07T23:59:59Z"), 2%nat) /\
  parse_isoformat "2024-01-02" = ret (Datetime (Date 2024 1 2) time_min None) /\
  toordinal (Date 2024 1 7) - toordinal (Date 2024 1 2) = 5.
Proof. cbv zeta. repeat split. Qed.

(** C6: once the two days of the range are resolved, each parsed
    from its argument or, for an argument not given, read from the
    clock, [_format_dates] raises exactly when the start day at
    00:00:00 is greater than the end day at 23:59:59.999999, and what
    it raises is its [ValueError]; that is the case exactly when the
    start date is after the end date.  Otherwise it returns the two
    strings, as it does whenever both days are the same date. *)
Theorem C6_range_error_iff
    (clock : nat -> datetime) (fromisoformat : string -> result datetime)
    (start_date end_date : option string) (start_day end_day : datetime)
    (tick t1 t2 : nat) :
  end_source clock fromisoformat end_date tick = (ret end_day, t1) ->
  start_source clock fromisoformat start_date t1 = (ret start_day, t2) ->
  let start := combine start_day time_min in
  let end_ := combine end_day time_max in
  let out := fst (_format_dates clock fromisoformat start_date end_date tick) in
  ((exists e, out = raise e) <-> datetime_gt start end_ = true) /\
  (datetime_gt start end_ = true ->
   out = raise (ValueError ("Start datetime greater than end datetime: "
                            +:+ str_datetime start +:+ " > " +:+ str_datetime end_))) /\
  (datetime_gt start end_ = false ->
   out = ret (isoformat start +:+ "Z", isoformat_seconds end_ +:+ "Z")) /\
  (datetime_gt start end_ = true <-> date_gt (dt_date start_day) (dt_date end_day) = true) /\
  (dt_date start_day = dt_date end_day -> datetime_gt start end_ = false).
Proof.
  intros Pe Ps start end_ out. subst out start end_.
  rewrite format_dates_by_days. unfold ret in Pe, Ps. rewrite Pe, Ps.
  rewrite range_message, isoformat_day_start, isoformat_day_end, datetime_gt_days.
  cbn [fst]. destruct (date_gt (dt_date start_day) (dt_date end_day)) eqn:Hgt.
  - split; [split; [reflexivity | intros _; eexists; reflexivity]|].
    split; [reflexivity|]. split; [discriminate|]. split; [tauto|].
    intros E. rewrite E, date_gt_irrefl in Hgt. discriminate.
  - split; [split; [intros [e H]; discriminate H | discriminate]|].
    split; [discriminate|]. split; [reflexivity|]. split; [tauto | reflexivity].
Qed.

(** The two ranges of the specification: 2024-01-10 to 2024-01-01
    fails, 2024-01-10 to 2024-01-10 succeeds. *)
Lemma C6_ten_then_first :
  let clock (_ : nat) := Datetime (Date 2024 3 3) (Time 9 0 0 0) None in
  let tenth := Datetime (Date 2024 1 10) time_min None in
  let first := Datetime (Date 2024 1 1) time_min None in
  (end_source clock parse_isoformat (Some "2024-01-01") 0%nat = (ret first, 0%nat) /\
   end_source clock parse_isoformat (Some "2024-01-10") 0%nat = (ret tenth, 0%nat) /\
   start_source clock parse_isoformat (Some "2024-01-10") 0%nat = (ret tenth, 0%nat)) /\
  fst (_format_dates clock parse_isoformat (Some "2024-01-10") (Some "2024-01-01") 0%nat)
  = raise (ValueError "Start datetime greater than end datetime: 2024-01-10 00:00:00 > 2024-01-01 23:59:59.999999") /\
  fst (_format_dates clock parse_isoformat (Some "2024-01-10") (Some "2024-01-10") 0%nat)
  = ret ("2024-01-10T00:00:00Z", "2024-01-10T23:59:59Z").
Proof.
  intros clock tenth first.
  assert (E1 : end_source clock parse_isoformat (Some "2024-01-01") 0%nat
               = (ret first, 0%nat)) by reflexivity.
  assert (E2 : end_source clock parse_isoformat (Some "2024-01-10") 0%nat
               = (ret tenth, 0%nat)) by reflexivity.
  assert (S1 : start_source clock parse_isoformat (Some "2024-01-10") 0%nat
               = (ret tenth, 0%nat)) by reflexivity.
  split; [exact (conj E1 (conj E2 S1))|]. split.
  - destruct (C6_range_error_iff clock parse_isoformat
                (Some "2024-01-10") (Some "2024-01-01") tenth first
                0%nat 0%nat 0%nat E1 S1) as (_ & Hfail & _).
    exact (Hfail eq_refl).
  - destruct (C6_range_error_iff clock parse_isoformat
                (Some "2024-01-10") (Some "2024-01-10") tenth tenth
                0%nat 0%nat 0%nat E2 S1) as (_ & _ & Hok & _ & Hsame).
    exact (Hok (Hsame eq_refl)).
Defined.

(** C10: a date string that parses to a datetime, whatever its time
    of day or offset, enters the range with its date alone.  Given as
    start it yields that date at 00:00:00, given as end that date at
    23:59:59, each labelled Z; the range error, too, depends on the
    dates only.  This holds with both dates given, with the start
    alone (the end is then the clock's day) and with the end alone
    (the start is then six days before the clock's day). *)
Theorem C10_time_of_day_discarded
    (clock : nat -> datetime) (fromisoformat : string -> result datetime)
    (start_date end_date : string) (start_day end_day : datetime) (tick : nat) :
  start_date <> "" -> end_date <> "" ->
  fromisoformat start_date = ret start_day ->
  fromisoformat end_date = ret end_day ->
  _format_dates clock fromisoformat (Some start_date) (Some end_date) tick
  = (if date_gt (dt_date start_day) (dt_date end_day)
     then raise (range_error (dt_date start_day) (dt_date end_day))
     else ret (day_start (dt_date start_day), day_end (dt_date end_day)),
     tick) /\
  _format_dates clock fromisoformat (Some start_date) None tick
  = (if date_gt (dt_date start_day) (dt_date (clock tick))
     then raise (range_error (dt_date start_day) (dt_date (clock tick)))
     else ret (day_start (dt_date start_day), day_end (dt_date (clock tick))),
     S tick) /\
  (forall week_ago,
     minus_days (clock tick) 6 = ret week_ago ->
     _format_dates clock fromisoformat None (Some end_date) tick
     = (if date_gt (dt_date week_ago) (dt_date end_day)
        then raise (range_error (dt_date week_ago) (dt_date end_day))
        else ret (day_start (dt_date week_ago), day_end (dt_date end_day)),
        S tick)).
Proof.
  intros Hs He Ps Pe. split; [|split].
  - rewrite format_dates_by_days.
    rewrite (end_source_given _ _ _ end_day tick He Pe).
    now rewrite (start_source_given _ _ _ start_day tick Hs Ps).
  - rewrite format_dates_by_days, end_source_default.
    now rewrite (start_source_given _ _ _ start_day (S tick) Hs Ps).
  - intros week_ago Hweek. rewrite format_dates_by_days.
    rewrite (end_source_given _ _ _ end_day tick He Pe).
    rewrite start_source_default, Hweek. reflexivity.
Qed.

(** Morning of the first to evening of the tenth. *)
Lemma C10_morning_to_evening :
  let clock (_ : nat) := Datetime (Date 2024 3 3) (Time 9 0 0 0) None in
  let morning := Datetime (Date 2024 1 1) (Time 8 30 0 0) None in
  let evening := Datetime (Date 2024 1 10) (Time 17 45 10 0) None in
  ("2024-01-01T08:30:00" <> "" /\ "2024-01-10T17:45:10" <> "" /\
   parse_isoformat "2024-01-01T08:30:00" = ret morning /\
   parse_isoformat "2024-01-10T17:45:10" = ret evening) /\
  _format_dates clock parse_isoformat
    (Some "2024-01-01T08:30:00") (Some "2024-01-10T17:45:10") 0%nat
  = (ret ("2024-01-01T00:00:00Z", "2024-01-10T23:59:59Z"), 0%nat).
Proof.
  intros clock morning evening.
  assert (N1 : "2024-01-01T08:30:00" <> "") by discriminate.
  assert (N2 : "2024-01-10T17:45:10" <> "") by discriminate.
  assert (P1 : parse_isoformat "2024-01-01T08:30:00" = ret morning) by reflexivity.
  assert (P2 : parse_isoformat "2024-01-10T17:45:10" = ret evening) by reflexivity.
  split; [exact (conj N1 (conj N2 (conj P1 P2)))|].
  exact (proj1 (C10_time_of_day_discarded clock parse_isoformat
                  "2024-01-01T08:30:00" "2024-01-10T17:45:10" morning evening 0%nat
                  N1 N2 P1 P2)).
Defined.

End DatesFacts.

(** ** Replies of any shape: facts *)

Module RepliesFacts.
Import Py Http Paging PagingFacts Replies.

Lemma passes_status status :
  passes status -> (400 <=? status) && (status <? 600) = false.
Proof.
  intros [H | H].
  - assert (E : (400 <=? status) = false) by (apply Z.leb_gt; lia). now rewrite E.
  - assert (E : (status <? 600) = false) by (apply Z.ltb_ge; lia).
    rewrite E. apply andb_false_r.
Qed.

(** X1: [_make_request] returns the decoded body, unchanged, exactly
    when the status is outside 400..599 and the body is JSON; a 1xx,
    3xx or 6xx status is no error.  Whatever the response, the call
    has put one request on the wire and taken one reply. *)
Theorem make_request_returns_body_iff
    (meth url_slug : string) (prm : option (gmap string pyval))
    (kw : gmap string pyval) (r : response) (later : list reply)
    (sent : list request) (v : pyval) :
  let out := _make_request meth url_slug prm kw (Wire (ret r :: later) sent) in
  (fst out = Done (ret v) <-> passes (status_code r) /\ body r = Some v) /\
  snd out = Wire later (sent ++ [Request meth (REQUEST_URL +:+ "/" +:+ url_slug) prm kw]).
Proof.
  cbv zeta. split; [|reflexivity]. cbn. unfold raise_for_status, json, passes.
  destruct ((400 <=? status_code r) && (status_code r <? 600)) eqn:Hs; cbn.
  - split; [discriminate|]. intros [Hp _].
    apply andb_prop in Hs as [H1 H2]. apply Z.leb_le in H1. apply Z.ltb_lt in H2. lia.
  - assert (Hp : status_code r < 400 \/ 600 <= status_code r).
    { apply andb_false_iff in Hs as [H | H];
        [left; apply Z.leb_gt in H | right; apply Z.ltb_ge in H]; lia. }
    destruct (body r) as [b|]; cbn.
    + split; [intros H; injection H as ->; auto | intros [_ H]; now injection H as ->].
    + split; [discriminate | intros [_ H]; discriminate].
Qed.

Section Passes.
Variables (meth url_slug : string) (kw : gmap string pyval).

(** One pass of the loop, whatever the reply. *)
Lemma loop_pass fuel prm data rp rest out :
  pages_loop (S fuel) meth url_slug kw prm data (Wire (rp :: rest) out)
  = match pass data rp with
    | inl e =>
        (Done (raise e), Wire rest (out ++ [page_request meth url_slug kw prm]))
    | inr (data', tok) =>
        if truthy tok
        then pages_loop fuel meth url_slug kw (<["nextToken" := tok]> prm) data'
               (Wire rest (out ++ [page_request meth url_slug kw prm]))
        else (Done (ret data'),
              Wire rest (out ++ [page_request meth url_slug kw prm]))
    end.
Proof.
  unfold pass. cbn. destruct rp as [e | r]; cbn; [reflexivity|].
  destruct (raise_for_status r); cbn; [reflexivity|].
  destruct (json r); cbn; [reflexivity|].
  destruct (absorb data p) as [e | [data' tok]]; reflexivity.
Qed.

Lemma paginate_raises prm ps rp later e :
  Forall (fun p => has_more p = true) ps ->
  pass (all_records ps) rp = raise e ->
  _make_paginated_request meth url_slug prm kw
    (Wire (map page_reply ps ++ rp :: later) [])
  = (Done (raise e),
     Wire later (map (page_request meth url_slug kw)
                   (trail (default ∅ prm) ps ++ [advance (default ∅ prm) ps]))).
Proof.
  intros Hall Hp. rewrite paginate_through by exact Hall.
  rewrite loop_pass, Hp. unfold raise. now rewrite map_app.
Qed.

(** Every request of the loop is the caller's but for the cursor. *)
Lemma loop_requests_as_called params0 fuel : forall prm data w,
  (forall k, k <> "nextToken" -> prm !! k = params0 !! k) ->
  Forall (as_called meth url_slug params0 kw) (outbox w) ->
  Forall (as_called meth url_slug params0 kw)
    (outbox (snd (pages_loop fuel meth url_slug kw prm data w))).
Proof.
  induction fuel as [|fuel IH]; intros prm data [inb out] Hprm Hout; [exact Hout|].
  assert (Hnew : Forall (as_called meth url_slug params0 kw)
                   (out ++ [page_request meth url_slug kw prm])).
  { apply Forall_app. split; [exact Hout|]. constructor; [|constructor].
    repeat split. exists prm. split; [reflexivity | exact Hprm]. }
  destruct inb as [|rp rest]; [exact Hnew|].
  rewrite loop_pass. destruct (pass data rp) as [e | [data' tok]]; [exact Hnew|].
  destruct (truthy tok); [|exact Hnew].
  apply IH; [|exact Hnew].
  intros k Hk. rewrite lookup_insert_ne by congruence. now apply Hprm.
Qed.

(** The loop takes replies from the front, one for each request. *)
Lemma loop_accounting fuel : forall prm data inb out,
  (length inb < fuel)%nat ->
  let res := pages_loop fuel meth url_slug kw prm data (Wire inb out) in
  exists consumed,
    inb = consumed ++ inbox (snd res) /\
    match fst res with
    | Done _ => length (outbox (snd res)) = (length out + length consumed)%nat
    | Waiting => inbox (snd res) = [] /\
                 length (outbox (snd res)) = S (length out + length consumed)
    end.
Proof.
  induction fuel as [|fuel IH]; intros prm data inb out Hfuel; [lia|].
  destruct inb as [|rp rest].
  - exists []. cbn. rewrite length_app. cbn. repeat split. lia.
  - cbv zeta. rewrite loop_pass.
    destruct (pass data rp) as [e | [data' tok]].
    + exists [rp]. cbn. rewrite length_app. cbn. split; [reflexivity | lia].
    + destruct (truthy tok).
      * cbn in Hfuel.
        destruct (IH (<["nextToken" := tok]> prm) data' rest
                    (out ++ [page_request meth url_slug kw prm]) ltac:(lia))
          as (consumed & Hin & Hout).
        exists (rp :: consumed). split; [cbn; now rewrite <- Hin|].
        destruct (fst (pages_loop fuel meth url_slug kw (<["nextToken" := tok]> prm) data'
                    (Wire rest (out ++ [page_request meth url_slug kw prm])))).
        -- rewrite Hout, length_app. cbn. lia.
        -- destruct Hout as [Hnil Hout]. split; [exact Hnil|].
           rewrite Hout, length_app. cbn. lia.
      * exists [rp]. cbn. rewrite length_app. cbn. split; [reflexivity | lia].
Qed.
End Passes.

(** X2: after pages that asked for more, a reply the loop cannot use
    ends [_make_paginated_request] with an exception and no list: an
    exception of the session is passed on; a body that is not JSON
    raises [JSONDecodeError]; a body that is not an object raises
    [TypeError]; an object without [records] raises
    [KeyError("records")], whatever its [next_token]; [records] that
    is null, a boolean or a number raises [TypeError].  In each case
    the bad reply has cost one request and the replies after it are
    left unread. *)
Theorem pagination_raises_on_bad_reply
    (meth url_slug : string) (prm : option (gmap string pyval))
    (kw : gmap string pyval) (ps : list page) (later : list reply) :
  Forall (fun p => has_more p = true) ps ->
  let run bad := _make_paginated_request meth url_slug prm kw
                   (Wire (map page_reply ps ++ bad :: later) []) in
  let raised e bad :=
    fst (run bad) = Done (raise e) /\
    inbox (snd (run bad)) = later /\
    length (outbox (snd (run bad))) = S (length ps) in
  (forall e, raised e (raise e)) /\
  (forall status, passes status ->
     raised JSONDecodeError (ret (Response status None))) /\
  (forall status v, passes status -> not_object v = true ->
     raised TypeError (ret (Response status (Some v)))) /\
  (forall status fields, passes status -> lookup_key "records" fields = None ->
     raised (KeyError "records") (ret (Response status (Some (PDict fields))))) /\
  (forall status fields recs, passes status ->
     lookup_key "records" fields = Some recs -> not_iterable recs = true ->
     raised TypeError (ret (Response status (Some (PDict fields))))).
Proof.
  intros Hall run raised.
  assert (Hgen : forall e bad, pass (all_records ps) bad = raise e -> raised e bad).
  { intros e bad Hp. unfold raised, run.
    rewrite (paginate_raises meth url_slug kw prm ps bad later e Hall Hp).
    cbn [fst snd inbox outbox]. repeat split.
    rewrite length_map, length_app, trail_length. cbn. lia. }
  split; [|split; [|split; [|split]]].
  - intros e. apply Hgen. reflexivity.
  - intros status Hs. apply Hgen. unfold pass, raise_for_status. cbn.
    now rewrite (passes_status _ Hs).
  - intros status v Hs Hv. apply Hgen. unfold pass, raise_for_status. cbn.
    rewrite (passes_status _ Hs). cbn. destruct v; try reflexivity. discriminate Hv.
  - intros status fields Hs Hr. apply Hgen. unfold pass, raise_for_status. cbn.
    rewrite (passes_status _ Hs). cbn. unfold absorb. cbn. now rewrite Hr.
  - intros status fields recs Hs Hr Hi. apply Hgen. unfold pass, raise_for_status. cbn.
    rewrite (passes_status _ Hs). cbn. unfold absorb. cbn. rewrite Hr. cbn.
    destruct recs; try discriminate Hi; reflexivity.
Qed.

(** A second page that has a cursor and no records. *)
Lemma pagination_raises_on_bad_reply_witness :
  let P1 := Page [PStr "a"] (Some (PStr "t1")) in
  let bad := ret (Response 200 (Some (PDict [("next_token", PStr "t2")]))) in
  let out := _make_paginated_request "GET" "v1/cycle" None ∅
               (Wire (map page_reply [P1] ++ bad :: []) []) in
  (Forall (fun p => has_more p = true) [P1] /\ passes 200 /\
   lookup_key "records" [("next_token", PStr "t2")] = None) /\
  fst out = Done (raise (KeyError "records")) /\
  inbox (snd out) = [] /\
  length (outbox (snd out)) = 2%nat.
Proof.
  intros P1 bad out.
  assert (H1 : Forall (fun p => has_more p = true) [P1])
    by (constructor; [reflexivity | constructor]).
  assert (H2 : passes 200) by (left; lia).
  assert (H3 : lookup_key "records" [("next_token", PStr "t2")] = None) by reflexivity.
  split; [exact (conj H1 (conj H2 H3))|].
  destruct (pagination_raises_on_bad_reply "GET" "v1/cycle" None ∅ [P1] [] H1)
    as (_ & _ & _ & Hmissing & _).
  exact (Hmissing 200 [("next_token", PStr "t2")] H2 H3).
Defined.

(** X3: whatever the replies, the first request of
    [_make_paginated_request] carries the caller's parameters as they
    are, and every request carries the caller's method, URL and other
    keyword arguments and parameters that differ from the caller's at
    most in [nextToken]. *)
Theorem requests_keep_caller_params
    (meth url_slug : string) (prm : option (gmap string pyval))
    (kw : gmap string pyval) (replies : list reply) :
  let sent := outbox (snd (_make_paginated_request meth url_slug prm kw
                             (Wire replies []))) in
  head sent = Some (page_request meth url_slug kw (default ∅ prm)) /\
  Forall (as_called meth url_slug (default ∅ prm) kw) sent.
Proof.
  cbv zeta. split.
  - unfold _make_paginated_request. cbn [inbox].
    destruct (loop_first_request meth url_slug kw (length replies) (default ∅ prm) []
                (Wire replies [])) as [more Hmore].
    rewrite Hmore. reflexivity.
  - unfold _make_paginated_request. apply loop_requests_as_called; [auto | constructor].
Qed.

(** X4: whatever the replies, [_make_paginated_request] takes them
    from the front and in order; when it returns or raises it has
    issued exactly as many requests as it took replies, and it is left
    waiting only when every reply has been taken, one request ahead. *)
Theorem one_request_per_reply
    (meth url_slug : string) (prm : option (gmap string pyval))
    (kw : gmap string pyval) (replies : list reply) :
  let out := _make_paginated_request meth url_slug prm kw (Wire replies []) in
  exists consumed,
    replies = consumed ++ inbox (snd out) /\
    match fst out with
    | Done _ => length (outbox (snd out)) = length consumed
    | Waiting => inbox (snd out) = [] /\
                 length (outbox (snd out)) = S (length consumed)
    end.
Proof.
  cbv zeta. unfold _make_paginated_request. cbn [inbox].
  destruct (loop_accounting meth url_slug kw (S (length replies)) (default ∅ prm) []
              replies [] ltac:(lia)) as (consumed & Hin & Hout).
  exists consumed. split; [exact Hin|]. exact Hout.
Qed.

End RepliesFacts.

(** ** Constructing and describing a client: facts *)

Module SessionFacts.
Import Py Http Dates Client Tokens ClientFacts Replies.

(** X9: when the token payload has a [user] that is not an object
    (null, a string, a list, a number) and [user_id] is still empty,
    [authenticate] raises [AttributeError], but only after the payload
    has been stored as the token: the call fails and the client is
    authenticated all the same. *)
Theorem authenticate_raises_after_storing
    (container_repr : pyval -> string) (c : WhoopClient)
    (fields : list (string * pyval)) (user : pyval) :
  user_id c = "" ->
  lookup_key "user" fields = Some user ->
  not_object user = true ->
  authenticate container_repr (ret (PDict fields)) c
  = (raise AttributeError, set_token (PDict fields) c) /\
  is_authenticated (snd (authenticate container_repr (ret (PDict fields)) c)) = true.
Proof.
  intros Hu Hf Hn.
  assert (E : authenticate container_repr (ret (PDict fields)) c
              = (raise AttributeError, set_token (PDict fields) c)).
  { unfold authenticate, fetch_token. cbn. rewrite Hu. cbn. rewrite Hf. cbn.
    destruct user; try reflexivity. discriminate Hn. }
  rewrite E. split; reflexivity.
Qed.

(** A token payload whose user is null. *)
Lemma authenticate_raises_after_storing_witness :
  let repr (_ : pyval) := "" in
  let c := Build_WhoopClient "me@example.com" "secret" PNone "" false in
  let fields := [("access_token", PStr "t0"); ("user", PNone)] in
  (user_id c = "" /\ lookup_key "user" fields = Some PNone /\ not_object PNone = true) /\
  authenticate repr (ret (PDict fields)) c
  = (raise AttributeError, set_token (PDict fields) c) /\
  is_authenticated (snd (authenticate repr (ret (PDict fields)) c)) = true.
Proof.
  intros repr c fields.
  assert (H1 : user_id c = "") by reflexivity.
  assert (H2 : lookup_key "user" fields = Some PNone) by reflexivity.
  assert (H3 : not_object PNone = true) by reflexivity.
  split; [exact (conj H1 (conj H2 H3))|].
  exact (authenticate_raises_after_storing repr c fields PNone H1 H2 H3).
Defined.

(** X10: [authenticate] is idempotent for one and the same answer of
    the authorization endpoint: calling it a second time gives the
    outcome and the client of the first call. *)
Theorem authenticate_twice_is_once
    (container_repr : pyval -> string) (answer : result pyval) (c : WhoopClient) :
  authenticate container_repr answer (snd (authenticate container_repr answer c))
  = authenticate container_repr answer c.
Proof.
  destruct answer as [e | payload]; [reflexivity|].
  destruct c as [u p t uid cl].
  unfold authenticate, fetch_token. cbn -[get bind str].
  destruct uid as [|ch uid]; cbn -[get bind str]; [|reflexivity].
  destruct (bind (get payload "user" (PDict [])) (fun user => get user "id" (PStr "")))
    as [e | id] eqn:Hb; cbn -[get bind str].
  - reflexivity.
  - destruct (str container_repr id) as [|ch s]; reflexivity.
Qed.



Lemma authenticate_without_user_id container_repr payload c :
  lacks_user_id payload -> user_id c = "" ->
  authenticate container_repr (ret payload) c = (ret tt, set_token payload c).
Proof.
  intros (fields & -> & Hlack) Hu.
  unfold authenticate, fetch_token. cbn. rewrite Hu. cbn.
  destruct Hlack as [Hnone | (user & Hsome & Hnone)].
  - rewrite Hnone. cbn. unfold set_user_id, set_token. cbn. now rewrite Hu.
  - rewrite Hsome. cbn. rewrite Hnone. cbn.
    unfold set_user_id, set_token. cbn. now rewrite Hu.
Qed.

(** X11: [__str__] names the user when [user_id] is not empty and
    prints [<Unauthenticated>] when it is; after a token payload
    without [user.id] the client prints [<Unauthenticated>] although
    [is_authenticated()] is true. *)
Theorem str_names_user_or_placeholder
    (container_repr : pyval -> string) (c : WhoopClient) :
  (user_id c <> "" -> __str__ c = "WhoopClient(" +:+ user_id c +:+ ")") /\
  (user_id c = "" -> __str__ c = "WhoopClient(<Unauthenticated>)") /\
  (forall payload,
     lacks_user_id payload -> user_id c = "" ->
     let c' := snd (authenticate container_repr (ret payload) c) in
     is_authenticated c' = true /\ __str__ c' = "WhoopClient(<Unauthenticated>)").
Proof.
  split; [|split].
  - unfold __str__. destruct (user_id c); [congruence | reflexivity].
  - unfold __str__. intros ->. reflexivity.
  - intros payload Hl Hu. cbv zeta.
    rewrite (authenticate_without_user_id _ _ _ Hl Hu).
    destruct Hl as (fields & -> & _). cbn. unfold __str__. cbn. rewrite Hu. now split.
Qed.

(** A new client handed a token that names no user. *)
Lemma str_names_user_or_placeholder_witness :
  let repr (_ : pyval) := "" in
  let c := Build_WhoopClient "me@example.com" "secret" PNone "" false in
  let payload := PDict [("access_token", PStr "t0")] in
  let c' := snd (authenticate repr (ret payload) c) in
  (lacks_user_id payload /\ user_id c = "") /\
  is_authenticated c' = true /\ __str__ c' = "WhoopClient(<Unauthenticated>)".
Proof.
  intros repr c payload c'.
  assert (H1 : lacks_user_id payload).
  { exists [("access_token", PStr "t0")]. split; [reflexivity | left; reflexivity]. }
  assert (H2 : user_id c = "") by reflexivity.
  split; [exact (conj H1 H2)|].
  exact (proj2 (proj2 (str_names_user_or_placeholder repr c)) payload H1 H2).
Defined.

End SessionFacts.

(** ** The accessors: facts *)

Module AccessorFacts.
Import Py Http Dates Client Paging Ranges PagingFacts DatesFacts Replies RepliesFacts Window.

Section Collections.
Variable clock : nat -> datetime.
Variable fromisoformat : string -> result datetime.

Lemma format_dates_given s e ds de tick :
  s <> "" -> e <> "" -> fromisoformat s = ret ds -> fromisoformat e = ret de ->
  _format_dates clock fromisoformat (Some s) (Some e) tick
  = (if date_gt (dt_date ds) (dt_date de)
     then raise (range_error (dt_date ds) (dt_date de))
     else ret (day_start (dt_date ds), day_end (dt_date de)), tick).
Proof.
  intros Hs He Ps Pe. rewrite format_dates_by_days.
  rewrite (end_source_given _ _ _ de tick He Pe).
  now rewrite (start_source_given _ _ _ ds tick Hs Ps).
Qed.
End Collections.

(** X6: a collection accessor whose dates are refused issues no
    request: when the end date does not parse, when the start date
    does not parse, and when the start date is after the end date, the
    call raises the parser's error or the range error and the wire is
    as it was. *)
Theorem collection_bad_dates_send_nothing
    (clock : nat -> datetime) (fromisoformat : string -> result datetime)
    (url_slug s e : string) (w : wire) (tick : nat) :
  s <> "" -> e <> "" ->
  (forall err start_date,
     fromisoformat e = raise err ->
     get_collection clock fromisoformat url_slug start_date (Some e) w tick
     = (Done (raise err), w, tick)) /\
  (forall err de,
     fromisoformat e = ret de -> fromisoformat s = raise err ->
     get_collection clock fromisoformat url_slug (Some s) (Some e) w tick
     = (Done (raise err), w, tick)) /\
  (forall ds de,
     fromisoformat s = ret ds -> fromisoformat e = ret de ->
     date_gt (dt_date ds) (dt_date de) = true ->
     get_collection clock fromisoformat url_slug (Some s) (Some e) w tick
     = (Done (raise (range_error (dt_date ds) (dt_date de))), w, tick)).
Proof.
  intros Hs He. split; [|split].
  - intros err start_date Pe. unfold get_collection.
    rewrite format_dates_by_days. destruct e as [|c e']; [congruence|].
    cbn. unfold lift. now rewrite Pe.
  - intros err de Pe Ps. unfold get_collection.
    rewrite format_dates_by_days, (end_source_given _ _ _ de tick He Pe).
    destruct s as [|c s']; [congruence|]. cbn. unfold lift. now rewrite Ps.
  - intros ds de Ps Pe Hgt. unfold get_collection.
    now rewrite (format_dates_given _ _ _ _ ds de tick Hs He Ps Pe), Hgt.
Qed.

(** The tenth to the first of January, with a page waiting unread. *)
Lemma collection_bad_dates_send_nothing_witness :
  let clock (_ : nat) := Datetime (Date 2024 3 3) (Time 9 0 0 0) None in
  let tenth := Datetime (Date 2024 1 10) time_min None in
  let first := Datetime (Date 2024 1 1) time_min None in
  let w := Wire [page_reply (Page [PStr "a"] (Some PNone))] [] in
  ("2024-01-10" <> "" /\ "2024-01-01" <> "" /\
   parse_isoformat "2024-01-10" = ret tenth /\
   parse_isoformat "2024-01-01" = ret first /\
   date_gt (dt_date tenth) (dt_date first) = true) /\
  get_collection clock parse_isoformat "v1/cycle" (Some "2024-01-10") (Some "2024-01-01") w 0%nat
  = (Done (raise (range_error (Date 2024 1 10) (Date 2024 1 1))), w, 0%nat).
Proof.
  intros clock tenth first w.
  assert (N1 : "2024-01-10" <> "") by discriminate.
  assert (N2 : "2024-01-01" <> "") by discriminate.
  assert (P1 : parse_isoformat "2024-01-10" = ret tenth) by reflexivity.
  assert (P2 : parse_isoformat "2024-01-01" = ret first) by reflexivity.
  assert (G : date_gt (dt_date tenth) (dt_date first) = true) by reflexivity.
  split; [exact (conj N1 (conj N2 (conj P1 (conj P2 G))))|].
  exact (proj2 (proj2 (collection_bad_dates_send_nothing clock parse_isoformat
                         "v1/cycle" "2024-01-10" "2024-01-01" w 0%nat N1 N2))
           tenth first P1 P2 G).
Defined.

(** X5: a collection accessor with two dates that parse, the start
    not after the end, returns the records of all pages in order; its
    first request is a GET of its path with [start] the start date at
    00:00:00Z, [end] the end date at 23:59:59Z and [limit] 25, and
    every later request repeats these three and adds [nextToken], the
    cursor of the page before. *)
Theorem collection_fetches_range
    (clock : nat -> datetime) (fromisoformat : string -> result datetime)
    (url_slug s e : string) (ds de : datetime) (tick : nat)
    (ps : list page) (last : page) (t : pyval) (later : list reply) :
  s <> "" -> e <> "" ->
  fromisoformat s = ret ds -> fromisoformat e = ret de ->
  date_gt (dt_date ds) (dt_date de) = false ->
  Forall (fun p => has_more p = true) ps ->
  next_token last = Some t -> truthy t = false ->
  let range := range_params (dt_date ds) (dt_date de) in
  get_collection clock fromisoformat url_slug (Some s) (Some e)
    (Wire (map page_reply (ps ++ [last]) ++ later) []) tick
  = (Done (ret (concat (map records (ps ++ [last])))),
     Wire later
       (map (page_request "GET" url_slug ∅)
          (range :: map (fun p => <["nextToken" := cursor p]> range) ps)),
     tick).
Proof.
  intros Hs He Ps Pe Hgt Hall Ht Hf range. unfold get_collection.
  rewrite (format_dates_given _ _ _ _ ds de tick Hs He Ps Pe), Hgt.
  unfold ret at 1.
  rewrite (paginate_returns "GET" url_slug ∅ _ ps last t later Hall Ht Hf).
  subst range. unfold range_params, default. cbn [from_option id].
  now rewrite (trail_from_start
                 (<["start" := PStr (day_start (dt_date ds))]>
                    (<["end" := PStr (day_end (dt_date de))]> {["limit" := PInt 25]}))
                 ps _ last).
Qed.

(** The first week of January over two pages of sleeps. *)
Lemma collection_fetches_range_witness :
  let clock (_ : nat) := Datetime (Date 2024 3 3) (Time 9 0 0 0) None in
  let first := Datetime (Date 2024 1 1) time_min None in
  let seventh := Datetime (Date 2024 1 7) time_min None in
  let P1 := Page [PStr "a"; PStr "b"] (Some (PStr "t1")) in
  let P2 := Page [PStr "c"] (Some PNone) in
  let range := range_params (Date 2024 1 1) (Date 2024 1 7) in
  ("2024-01-01" <> "" /\ "2024-01-07" <> "" /\
   parse_isoformat "2024-01-01" = ret first /\
   parse_isoformat "2024-01-07" = ret seventh /\
   date_gt (dt_date first) (dt_date seventh) = false /\
   Forall (fun p => has_more p = true) [P1] /\
   next_token P2 = Some PNone /\ truthy PNone = false) /\
  get_collection clock parse_isoformat "v1/activity/sleep"
    (Some "2024-01-01") (Some "2024-01-07")
    (Wire (map page_reply ([P1] ++ [P2]) ++ []) []) 0%nat
  = (Done (ret [PStr "a"; PStr "b"; PStr "c"]),
     Wire []
       [ page_request "GET" "v1/activity/sleep" ∅ range;
         page_request "GET" "v1/activity/sleep" ∅ (<["nextToken" := PStr "t1"]> range) ],
     0%nat).
Proof.
  intros clock first seventh P1 P2 range.
  assert (N1 : "2024-01-01" <> "") by discriminate.
  assert (N2 : "2024-01-07" <> "") by discriminate.
  assert (Q1 : parse_isoformat "2024-01-01" = ret first) by reflexivity.
  assert (Q2 : parse_isoformat "2024-01-07" = ret seventh) by reflexivity.
  assert (G : date_gt (dt_date first) (dt_date seventh) = false) by reflexivity.
  assert (H1 : Forall (fun p => has_more p = true) [P1])
    by (constructor; [reflexivity | constructor]).
  split; [exact (conj N1 (conj N2 (conj Q1 (conj Q2 (conj G (conj H1 (conj eq_refl eq_refl)))))))|].
  exact (collection_fetches_range clock parse_isoformat "v1/activity/sleep"
           "2024-01-01" "2024-01-07" first seventh 0%nat [P1] P2 PNone []
           N1 N2 Q1 Q2 G H1 eq_refl eq_refl).
Defined.

(** X7: on a response that passes, each accessor of a single object
    returns the decoded body as it is after one GET, without query
    parameters, of its own path under [REQUEST_URL]; the identifier is
    put into the path as it is given, so that [get_cycle_by_id] with
    an identifier ending in [/recovery] is the request of
    [get_recovery_for_cycle]. *)
Theorem accessors_get_their_paths
    (r : response) (v : pyval) (later : list reply) (sent : list request)
    (id : string) :
  passes (status_code r) -> body r = Some v ->
  let w := Wire (ret r :: later) sent in
  let got url_slug :=
    (Done (ret v),
     Wire later (sent ++ [Request "GET" (REQUEST_URL +:+ "/" +:+ url_slug) None ∅])) in
  get_profile w = got "v1/user/profile/basic" /\
  get_body_measurement w = got "v1/user/measurement/body" /\
  get_cycle_by_id id w = got ("v1/cycle/" +:+ id) /\
  get_recovery_for_cycle id w = got ("v1/cycle/" +:+ id +:+ "/recovery") /\
  get_sleep_by_id id w = got ("v1/activity/sleep/" +:+ id) /\
  get_workout_by_id id w = got ("v1/activity/workout/" +:+ id) /\
  get_cycle_by_id (id +:+ "/recovery") w = get_recovery_for_cycle id w.
Proof.
  intros Hs Hb w got.
  assert (Hgen : forall slug, _make_request "GET" slug None ∅ w = got slug).
  { intros slug. unfold got, w, _make_request. cbn. unfold raise_for_status, json.
    now rewrite (passes_status _ Hs), Hb. }
  repeat split; apply Hgen.
Qed.

(** Cycle 93845. *)
Lemma accessors_get_their_paths_witness :
  let v := PDict [("user_id", PInt 10129)] in
  let r := Response 200 (Some v) in
  (passes (status_code r) /\ body r = Some v) /\
  get_cycle_by_id "93845" (Wire [ret r] [])
  = (Done (ret v),
     Wire [] [Request "GET" "https://api.prod.whoop.com/developer/v1/cycle/93845" None ∅]).
Proof.
  intros v r.
  assert (H1 : passes (status_code r)) by (left; cbn; lia).
  assert (H2 : body r = Some v) by reflexivity.
  split; [exact (conj H1 H2)|].
  destruct (accessors_get_their_paths r v [] [] "93845" H1 H2) as (_ & _ & H & _).
  exact H.
Defined.

End AccessorFacts.

(** ** The default window: facts *)

Module WindowFacts.
Import Py Dates Ranges DatesFacts Window.


(** X14: [_format_dates] treats an empty string like [None], and
    never hands the empty string to the parser: the result is the same
    with the empty strings replaced by [None] and with any parser that
    agrees on the strings that are not empty. *)
Theorem empty_date_counts_as_missing
    (clock : nat -> datetime) (parse parse' : string -> result datetime)
    (start_date end_date : option string) (tick : nat) :
  (forall s, s <> "" -> parse s = parse' s) ->
  _format_dates clock parse start_date end_date tick
  = _format_dates clock parse' (blank_as_none start_date) (blank_as_none end_date) tick.
Proof.
  intros Hp. unfold _format_dates, cbind, lift.
  destruct end_date as [[|c1 s1]|]; destruct start_date as [[|c2 s2]|]; cbn [blank_as_none];
    try reflexivity;
    repeat match goal with
           | |- context [parse (String ?c ?s)] =>
               rewrite (Hp (String c s)) by discriminate
           end; reflexivity.
Qed.

(** A parser that would accept the empty string is never asked. *)
Lemma empty_date_counts_as_missing_witness :
  let clock (_ : nat) := Datetime (Date 2024 3 3) (Time 9 0 0 0) None in
  let parse' (s : string) :=
    match s with
    | EmptyString => ret (Datetime (Date 1999 1 1) time_min None)
    | _ => parse_isoformat s
    end in
  (forall s, s <> "" -> parse_isoformat s = parse' s) /\
  _format_dates clock parse_isoformat (Some "") (Some "2024-03-01") 0%nat
  = _format_dates clock parse' None (Some "2024-03-01") 0%nat.
Proof.
  intros clock parse'.
  assert (H : forall s, s <> "" -> parse_isoformat s = parse' s)
    by (intros [|c s] Hs; [congruence | reflexivity]).
  split; [exact H|].
  exact (empty_date_counts_as_missing clock parse_isoformat parse'
           (Some "") (Some "2024-03-01") 0%nat H).
Defined.

(** X15: [_format_dates] reads the clock once for each date that is
    not given, first for the end and then for the start, and not at
    all when both are given: a clock that agrees on those readings
    gives the same result, and the count of readings grows by at most
    the number of dates not given. *)
Theorem clock_read_for_missing_dates_only
    (clock clock' : nat -> datetime) (fromisoformat : string -> result datetime)
    (start_date end_date : option string) (tick : nat) :
  let start_tick := if given end_date then tick else S tick in
  (given end_date = false -> clock' tick = clock tick) ->
  (given start_date = false -> clock' start_tick = clock start_tick) ->
  _format_dates clock fromisoformat start_date end_date tick
  = _format_dates clock' fromisoformat start_date end_date tick /\
  (tick <= snd (_format_dates clock fromisoformat start_date end_date tick)
        <= tick + (if given end_date then 0 else 1)
                + (if given start_date then 0 else 1))%nat.
Proof.
  cbv zeta. intros He Hs. rewrite !format_dates_by_days.
  unfold end_source, start_source, cbind, lift, today.
  destruct end_date as [[|c1 s1]|]; destruct start_date as [[|c2 s2]|];
    cbn [given] in *;
    try rewrite (He eq_refl); try rewrite (Hs eq_refl);
    (split; [reflexivity|]);
    cbn -[minus_days date_gt];
    repeat match goal with
           | |- context [fromisoformat ?s] => destruct (fromisoformat s)
           | |- context [minus_days ?d ?n] => destruct (minus_days d n)
           end; cbn -[date_gt]; lia.
Qed.

(** With the start given, only the first reading counts. *)
Lemma clock_read_for_missing_dates_only_witness :
  let clock (_ : nat) := Datetime (Date 2024 3 3) (Time 9 0 0 0) None in
  let clock' (i : nat) :=
    match i with
    | O => Datetime (Date 2024 3 3) (Time 9 0 0 0) None
    | S _ => Datetime (Date 1999 1 1) (Time 9 0 0 0) None
    end in
  (given None = false -> clock' 0%nat = clock 0%nat) /\
  (given (Some "2024-03-01") = false -> clock' 1%nat = clock 1%nat) /\
  _format_dates clock parse_isoformat (Some "2024-03-01") None 0%nat
  = _format_dates clock' parse_isoformat (Some "2024-03-01") None 0%nat.
Proof.
  intros clock clock'.
  assert (H1 : given None = false -> clock' 0%nat = clock 0%nat) by reflexivity.
  assert (H2 : given (Some "2024-03-01") = false -> clock' 1%nat = clock 1%nat)
    by discriminate.
  split; [exact H1|]. split; [exact H2|].
  exact (proj1 (clock_read_for_missing_dates_only clock clock' parse_isoformat
                  (Some "2024-03-01") None 0%nat H1 H2)).
Defined.

End WindowFacts.

(** ** Dates against today: facts *)

Module OrderFacts.
Import Py Dates Ranges DatesFacts.

Lemma date_gt_total a b :
  date_gt a b = false -> date_gt b a = false ->
  year a = year b /\ month a = month b /\ day a = day b.
Proof.
  unfold date_gt. cbn. rewrite !andb_false_r, !orb_false_r. intros H1 H2.
  destruct (Z.ltb_spec (year b) (year a)); [discriminate|].
  destruct (Z.ltb_spec (year a) (year b)); [discriminate|].
  assert (Ey : year a = year b) by lia.
  rewrite Ey, Z.eqb_refl in H1, H2. cbn in H1, H2.
  destruct (Z.ltb_spec (month b) (month a)); [discriminate|].
  destruct (Z.ltb_spec (month a) (month b)); [discriminate|].
  assert (Em : month a = month b) by lia.
  rewrite Em, Z.eqb_refl in H1, H2. cbn in H1, H2.
  apply Z.ltb_ge in H1, H2. lia.
Qed.

(** On valid dates the order of dates is the order of their ordinals. *)
Lemma date_gt_iff_ordinal a b :
  valid_date a = true -> valid_date b = true ->
  (date_gt a b = true <-> toordinal b < toordinal a).
Proof.
  intros Ha Hb. split; [now apply toordinal_mono|].
  intros Hlt. destruct (date_gt a b) eqn:Hab; [reflexivity|].
  destruct (date_gt b a) eqn:Hba.
  - pose proof (toordinal_mono b a Hb Ha Hba). lia.
  - destruct (date_gt_total a b Hab Hba) as (Ey & Em & Ed).
    unfold toordinal in Hlt. rewrite Ey, Em, Ed in Hlt. lia.
Qed.

(** X13: with one date given and the other left to the clock, on
    valid dates: a start date alone fails exactly when it is after
    today, and an end date alone fails exactly when it is more than
    six days before today, because the default start, today minus six
    days, is then after it. *)
Theorem one_date_given_against_today
    (clock : nat -> datetime) (fromisoformat : string -> result datetime)
    (s : string) (d : datetime) (tick : nat) :
  s <> "" ->
  fromisoformat s = ret d ->
  valid_date (dt_date d) = true ->
  valid_date (dt_date (clock tick)) = true ->
  6 < toordinal (dt_date (clock tick)) ->
  let today := toordinal (dt_date (clock tick)) in
  let failed (out : result (string * string) * nat) := exists e, fst out = raise e in
  (failed (_format_dates clock fromisoformat (Some s) None tick)
   <-> today < toordinal (dt_date d)) /\
  (failed (_format_dates clock fromisoformat None (Some s) tick)
   <-> toordinal (dt_date d) < today - 6).
Proof.
  intros Hs Ps Hd Ht H6 today failed. subst today failed. cbv beta. split.
  - rewrite format_dates_by_days, end_source_default.
    rewrite (start_source_given _ _ _ d (S tick) Hs Ps). cbn [fst].
    rewrite <- (date_gt_iff_ordinal _ _ Hd Ht).
    destruct (date_gt (dt_date d) (dt_date (clock tick))).
    + split; [reflexivity | intros _; eexists; reflexivity].
    + split; [intros [e H]; discriminate H | discriminate].
  - rewrite format_dates_by_days.
    rewrite (end_source_given _ _ _ d tick Hs Ps), start_source_default.
    destruct (minus_six_days (clock tick) Ht H6) as (sd & Hminus & Hord & Hvalid & _).
    rewrite Hminus. unfold ret at 1. cbn [fst].
    rewrite <- Hord, <- (date_gt_iff_ordinal _ _ Hvalid Hd).
    destruct (date_gt (dt_date sd) (dt_date d)).
    + split; [reflexivity | intros _; eexists; reflexivity].
    + split; [intros [e H]; discriminate H | discriminate].
Qed.

(** On the third of March, an end date of the first of February alone. *)
Lemma one_date_given_against_today_witness :
  let clock (_ : nat) := Datetime (Date 2024 3 3) (Time 9 0 0 0) None in
  let d := Datetime (Date 2024 2 1) time_min None in
  ("2024-02-01" <> "" /\ parse_isoformat "2024-02-01" = ret d /\
   valid_date (dt_date d) = true /\ valid_date (dt_date (clock 0%nat)) = true /\
   6 < toordinal (dt_date (clock 0%nat)) /\
   toordinal (dt_date d) < toordinal (dt_date (clock 0%nat)) - 6) /\
  exists e, fst (_format_dates clock parse_isoformat None (Some "2024-02-01") 0%nat) = raise e.
Proof.
  intros clock d.
  assert (N : "2024-02-01" <> "") by discriminate.
  assert (P : parse_isoformat "2024-02-01" = ret d) by reflexivity.
  assert (V1 : valid_date (dt_date d) = true) by reflexivity.
  assert (V2 : valid_date (dt_date (clock 0%nat)) = true) by reflexivity.
  assert (H6 : 6 < toordinal (dt_date (clock 0%nat))) by reflexivity.
  assert (L : toordinal (dt_date d) < toordinal (dt_date (clock 0%nat)) - 6) by reflexivity.
  split; [exact (conj N (conj P (conj V1 (conj V2 (conj H6 L)))))|].
  exact (proj2 (proj2 (one_date_given_against_today clock parse_isoformat
                         "2024-02-01" d 0%nat N P V1 V2 H6)) L).
Defined.

End OrderFacts.

(** ** The JSON client authentication method: facts *)

Module AuthFacts.
Import Py Auth.

Lemma lookup_setitem k v d k' :
  lookup_key k' (setitem k v d) = if String.eqb k k' then Some v else lookup_key k' d.
Proof.
  induction d as [|[k0 v0] d IH]; cbn.
  - reflexivity.
  - destruct (String.eqb_spec k0 k) as [-> | Hne]; cbn.
    + destruct (String.eqb k k'); reflexivity.
    + destruct (String.eqb_spec k0 k') as [-> | Hne'].
      * destruct (String.eqb_spec k k'); [congruence | reflexivity].
      * exact IH.
Qed.

Lemma keys_setitem k v d k' :
  In k' (map fst (setitem k v d)) <-> k' = k \/ In k' (map fst d).
Proof.
  induction d as [|[k0 v0] d IH]; cbn.
  - intuition congruence.
  - destruct (String.eqb_spec k0 k) as [-> | Hne]; cbn; [intuition congruence|].
    rewrite IH. intuition congruence.
Qed.

Lemma nodup_setitem k v d :
  List.NoDup (map fst d) -> List.NoDup (map fst (setitem k v d)).
Proof.
  induction d as [|[k0 v0] d IH]; cbn; intros Hd.
  - constructor; [intros [] | constructor].
  - inversion Hd as [|? ? Hnot Hrest]; subst.
    destruct (String.eqb_spec k0 k) as [-> | Hne]; cbn.
    + constructor; assumption.
    + constructor; [|apply IH; exact Hrest].
      rewrite keys_setitem. intros [E | Hin]; [congruence | contradiction].
Qed.

Lemma build_spec pairs : forall d k,
  List.NoDup (map fst d) ->
  let d' := fold_left (fun d kv => setitem (fst kv) (PStr (snd kv)) d) pairs d in
  List.NoDup (map fst d') /\
  lookup_key k d' = match last_value k pairs with
                    | Some v => Some (PStr v)
                    | None => lookup_key k d
                    end.
Proof.
  induction pairs as [|[k0 v0] pairs IH]; intros d k Hd; cbn.
  - split; [exact Hd | reflexivity].
  - destruct (IH (setitem k0 (PStr v0) d) k (nodup_setitem _ _ _ Hd)) as [Hn Hl].
    split; [exact Hn|]. cbn in Hl. rewrite Hl.
    destruct (last_value k pairs); [reflexivity|].
    rewrite lookup_setitem. destruct (String.eqb k0 k); reflexivity.
Qed.

(** X16: [_auth_password_json] raises [TypeError] when the body holds
    no parameters, before the headers are touched; otherwise it
    returns the URI as it was, the headers with [Content-Type] set to
    [application/json], and the JSON of a dict in which every
    parameter name occurs once, with the value of its last occurrence
    in the body. *)
Theorem auth_password_json_rebuilds_request
    (extract_params : string -> option (list (string * string)))
    (dumps : pyval -> string) (headers_of_request : Type)
    (set_header : string -> string -> headers_of_request -> headers_of_request)
    (uri : string) (headers : headers_of_request) (body : string) :
  (extract_params body = None ->
   _auth_password_json extract_params dumps headers_of_request set_header uri headers body
   = raise TypeError) /\
  (forall pairs,
     extract_params body = Some pairs ->
     exists d,
       _auth_password_json extract_params dumps headers_of_request set_header uri headers body
       = ret (uri, set_header "Content-Type" "application/json" headers, dumps (PDict d)) /\
       List.NoDup (map fst d) /\
       (forall k, lookup_key k d = PStr <$> last_value k pairs)).
Proof.
  unfold _auth_password_json. split.
  - intros ->. reflexivity.
  - intros pairs ->. exists (dict pairs).
    split; [reflexivity|]. split.
    + apply (build_spec pairs [] "" (List.NoDup_nil _)).
    + intros k. destruct (build_spec pairs [] k (List.NoDup_nil _)) as [_ Hl].
      unfold dict. cbn in Hl. rewrite Hl. destruct (last_value k pairs); reflexivity.
Qed.

(** A body that names the user twice. *)
Lemma auth_password_json_rebuilds_request_witness :
  let pairs := [("grant_type", "password"); ("username", "a"); ("username", "b")] in
  let extract (_ : string) := Some pairs in
  let dumps (_ : pyval) := "{}" in
  let set_header (k v : string) (h : list (string * string)) := (k, v) :: h in
  extract "grant_type=password&username=a&username=b" = Some pairs /\
  exists d,
    _auth_password_json extract dumps (list (string * string)) set_header
      "https://api-7.whoop.com/oauth/token" []
      "grant_type=password&username=a&username=b"
    = ret ("https://api-7.whoop.com/oauth/token",
           [("Content-Type", "application/json")], dumps (PDict d)) /\
    List.NoDup (map fst d) /\
    (forall k, lookup_key k d = PStr <$> last_value k pairs).
Proof.
  intros pairs extract dumps set_header. split; [reflexivity|].
  exact (proj2 (auth_password_json_rebuilds_request extract dumps
                  (list (string * string)) set_header
                  "https://api-7.whoop.com/oauth/token" []
                  "grant_type=password&username=a&username=b")
           pairs eq_refl).
Defined.

End AuthFacts.
